(** * Presentational components of the blog site: a shallow embedding

    The site is a Docusaurus application.  Its own code is a handful of
    function components (StatusIndicator, TechBadge, Badge,
    TerminalWindow, HomepageFeatures, the mobile blog sidebar, About) and
    the class-name helper [cn].  Components are embedded as functions
    from props to a tree of React elements; the three npm helpers they
    call (clsx, tailwind-merge, class-variance-authority) are embedded
    next to them, tailwind-merge with its class-group table left as a
    parameter. *)

From Stdlib Require Import String Ascii List Bool Arith.
From ExtLib Require Import Structures.Monad Structures.MonadState.
From ExtLib Require Import Data.Monads.StateMonad.
Import ListNotations.
Import MonadNotation.
Local Open Scope list_scope.
Local Open Scope monad_scope.
Local Open Scope string_scope.
Set Warnings "-register-all".

(** ** JavaScript values *)

Module JS.

(** The values that reach [clsx] and the configuration objects: the
    JSDoc of [cn] gives its inputs as [string | object | undefined].
    An object keeps its own properties in insertion order, the order in
    which [for...in] and [Object.keys] go through them.  [VBuiltin]
    stands for an object reached through the prototype chain of a plain
    object ([Object.prototype] itself or one of its methods). *)
Inductive Value : Type :=
| VUndef
| VNull
| VBool (b : bool)
| VStr (s : string)
| VArr (items : list Value)
| VObj (props : list (string * Value))
| VBuiltin (name : string).

(** ToBoolean. *)
Definition truthy (v : Value) : bool :=
  match v with
  | VUndef | VNull => false
  | VBool b => b
  | VStr s => negb (s =? "")
  | VArr _ | VObj _ | VBuiltin _ => true
  end.

(** [a || b] *)
Definition or_ (a b : Value) : Value := if truthy a then a else b.

(** Property names every plain object inherits from [Object.prototype]. *)
Definition objectPrototypeKeys : list string :=
  [ "constructor"; "__defineGetter__"; "__defineSetter__"; "hasOwnProperty";
    "__lookupGetter__"; "__lookupSetter__"; "isPrototypeOf";
    "propertyIsEnumerable"; "toString"; "valueOf"; "__proto__";
    "toLocaleString" ].

Definition inherited (key : string) : Value :=
  if existsb (String.eqb key) objectPrototypeKeys then VBuiltin key else VUndef.

Fixpoint own (props : list (string * Value)) (key : string) : option Value :=
  match props with
  | [] => None
  | (k, v) :: rest => if k =? key then Some v else own rest key
  end.

(** [o[key]] for a string key: the own property, else the one inherited
    from [Object.prototype]; primitives other than objects have none of
    the keys the components read.  Own properties of the built-in
    functions ([length], [name], [prototype]) are left out: no component
    reads them. *)
Definition prop (o : Value) (key : string) : Value :=
  match o with
  | VObj props =>
      match own props key with
      | Some v => v
      | None => inherited key
      end
  | VBuiltin _ => inherited key
  | _ => VUndef
  end.

Definition ofOption (s : option string) : Value :=
  match s with
  | Some x => VStr x
  | None => VUndef
  end.

End JS.
Import JS.

(** ** clsx *)

Module Clsx.

(** [str && (str += ' '); str += y] *)
Definition push (str y : string) : string :=
  if str =? "" then y else str ++ " " ++ y.

(** [toVal] of the clsx package (a dependency of the site): a string is
    itself, an array contributes its truthy members' values, an object
    the keys whose value is truthy. *)
Fixpoint toVal (mix : Value) : string :=
  match mix with
  | VStr s => s
  | VArr items =>
      fold_left
        (fun str m =>
           if truthy m
           then let y := toVal m in if y =? "" then str else push str y
           else str)
        items ""
  | VObj props =>
      fold_left
        (fun str kv => if truthy (snd kv) then push str (fst kv) else str)
        props ""
  | _ => ""
  end.

(** [clsx(...arguments)] *)
Definition clsx (arguments : list Value) : string :=
  fold_left
    (fun str tmp =>
       if truthy tmp
       then let x := toVal tmp in if x =? "" then str else push str x
       else str)
    arguments "".

End Clsx.
Import Clsx.

(** ** Class lists *)

Module ClassList.

(** White space as [/\s/] sees it on ASCII text. *)
Definition isSpace (c : ascii) : bool :=
  match nat_of_ascii c with
  | 9 | 10 | 11 | 12 | 13 | 32 => true
  | _ => false
  end.

Definition flush (cur : string) : list string :=
  if cur =? "" then [] else [cur].

Fixpoint wordsFrom (cur s : string) : list string :=
  match s with
  | EmptyString => flush cur
  | String c rest =>
      if isSpace c then (flush cur ++ wordsFrom "" rest)%list
      else wordsFrom (cur ++ String c "") rest
  end.

(** [s.trim().split(/\s+/)], without the empty token JavaScript returns
    for the empty string. *)
Definition words (s : string) : list string := wordsFrom "" s.

Definition unwords (l : list string) : string := String.concat " " l.

Fixpoint spaceFree (s : string) : bool :=
  match s with
  | EmptyString => true
  | String c rest => negb (isSpace c) && spaceFree rest
  end.

Definition isWord (w : string) : bool := negb (w =? "") && spaceFree w.

Definition hasClass (c s : string) : bool := existsb (String.eqb c) (words s).

End ClassList.
Import ClassList.

(** ** tailwind-merge

    A dependency of the site, like clsx.  Its merge loop is embedded as
    it runs; how a class name is parsed and filed under a class group is
    the package's table and is taken as a parameter. *)

Module TwMerge.

(** What tailwind-merge derives from one class name: the sorted variant
    modifiers (with the important marker), the class group, and the
    groups that group overrides ([getConflictingClassGroupIds]). *)
Record ClassInfo : Type := {
  modifierId : string;
  classGroupId : string;
  conflicting : list string
}.

(** The class-group table of the package; [None] for a class that is not
    a Tailwind utility. *)
Definition Classifier : Type := string -> option ClassInfo.

Definition classId (i : ClassInfo) : string := modifierId i ++ classGroupId i.

Definition claimed (i : ClassInfo) : list string :=
  classId i :: map (fun g => modifierId i ++ g) (conflicting i).

Definition mem (x : string) (l : list string) : bool := existsb (String.eqb x) l.

Section Merge.

Variable classify : Classifier.

(** The loop of [mergeClassList], from the last class to the first:
    [inConflict] is [classGroupsInConflict], the result lists the kept
    classes in the order they are visited. *)
Fixpoint mergeFromEnd (inConflict : list string) (visited : list string)
  : list string :=
  match visited with
  | [] => []
  | originalClassName :: earlier =>
      match classify originalClassName with
      | None => originalClassName :: mergeFromEnd inConflict earlier
      | Some i =>
          if mem (classId i) inConflict
          then mergeFromEnd inConflict earlier
          else originalClassName
                 :: mergeFromEnd (inConflict ++ claimed i)%list earlier
      end
  end.

(** [classGroupsInConflict] once the loop has gone through [visited]. *)
Fixpoint conflictAfter (inConflict : list string) (visited : list string)
  : list string :=
  match visited with
  | [] => inConflict
  | originalClassName :: earlier =>
      match classify originalClassName with
      | None => conflictAfter inConflict earlier
      | Some i =>
          if mem (classId i) inConflict
          then conflictAfter inConflict earlier
          else conflictAfter (inConflict ++ claimed i)%list earlier
      end
  end.

Definition mergeClassList (classList : string) : string :=
  unwords (rev (mergeFromEnd [] (rev (words classList)))).

(** [twMerge(classList)]; the package's result cache is a memo table
    and is left out. *)
Definition twMerge (classList : string) : string := mergeClassList classList.

(** [c], placed later, makes tailwind-merge drop [b]. *)
Definition overrides (c b : string) : bool :=
  match classify c, classify b with
  | Some ic, Some ib => mem (classId ib) (claimed ic)
  | _, _ => false
  end.

End Merge.

End TwMerge.
Import TwMerge.

(** ** src/lib/utils.js *)

Definition cn (classify : Classifier) (inputs : list Value) : string :=
  twMerge classify (clsx [VArr inputs]).

(** ** React elements *)

Module Markup.

(** An entry of the blog sidebar, as the blog plugin hands it over. *)
Record BlogSidebarItem : Type := {
  title : string;
  permalink : string;
  unlisted : bool
}.

Inductive AttrVal : Type :=
| AStr (s : string)
| ANum (n : nat)
| AStyle (declarations : list (string * string))
| AComp (name : string)
| AItems (items : list BlogSidebarItem).

(** What a component returns.  [Undef] is a child that evaluated to
    [undefined]; a host or framework component that is not expanded
    stays an element under its own name. *)
Inductive Node : Type :=
| Undef
| Text (s : string)
| Elem (tag : string) (attrs : list (string * AttrVal)) (children : list Node)
| Frag (children : list Node).

(** React leaves out [undefined] and the empty string. *)
Definition visible (n : Node) : bool :=
  match n with
  | Undef => false
  | Text s => negb (s =? "")
  | _ => true
  end.

Definition childrenOf (n : Node) : list Node :=
  match n with
  | Elem _ _ cs | Frag cs => filter visible cs
  | _ => []
  end.

Definition tagOf (n : Node) : option string :=
  match n with
  | Elem t _ _ => Some t
  | _ => None
  end.

Fixpoint attr (attrs : list (string * AttrVal)) (name : string) : option AttrVal :=
  match attrs with
  | [] => None
  | (k, v) :: rest => if k =? name then Some v else attr rest name
  end.

Definition classNameOf (n : Node) : string :=
  match n with
  | Elem _ attrs _ =>
      match attr attrs "className" with
      | Some (AStr s) => s
      | _ => ""
      end
  | _ => ""
  end.

(** The class list of an element. *)
Definition classesOf (n : Node) : list string := words (classNameOf n).

(** Every element of the tree under a given tag, in document order. *)
Fixpoint elements (tag : string) (n : Node) : list Node :=
  match n with
  | Elem t _ cs =>
      ((if t =? tag then [n] else []) ++ flat_map (elements tag) cs)%list
  | Frag cs => flat_map (elements tag) cs
  | _ => []
  end.

(** The tags of the tree in document order. *)
Fixpoint tags (n : Node) : list string :=
  match n with
  | Elem t _ cs => t :: flat_map tags cs
  | Frag cs => flat_map tags cs
  | _ => []
  end.

(** Navigation links: the framework's [Link] and plain anchors. *)
Definition links (n : Node) : list Node :=
  (elements "Link" n ++ elements "a" n)%list.

End Markup.
Import Markup.

(** ** class-variance-authority

    The third dependency: [cva] builds the function [badgeVariants]. *)

Module Cva.

(** [String(v)], the key under which [o[v]] looks a value up. *)
Fixpoint toPropertyKey (v : Value) : string :=
  match v with
  | VUndef => "undefined"
  | VNull => "null"
  | VBool b => if b then "true" else "false"
  | VStr s => s
  | VArr items =>
      String.concat ","
        (map (fun x => match x with
                       | VUndef | VNull => ""
                       | _ => toPropertyKey x
                       end) items)
  | VObj _ => "[object Object]"
  | VBuiltin name =>
      if name =? "__proto__" then "[object Object]"
      else "function " ++ name ++ "() { [native code] }"
  end.

Definition falsyToString (value : Value) : Value :=
  match value with
  | VBool b => VStr (if b then "true" else "false")
  | _ => value
  end.

Definition ownProps (o : Value) : list (string * Value) :=
  match o with
  | VObj props => props
  | _ => []
  end.

(** [cva(base, { variants, defaultVariants })(props)] for a configuration
    without compound variants: the base classes, then for each variant
    the classes filed under the prop or, when the prop is falsy, under
    the default. *)
Definition cva (base : string) (variants defaultVariants : Value)
  (props : Value) : string :=
  let getVariantClassNames :=
    map (fun entry =>
           let variant := fst entry in
           let variantProp := prop props variant in
           let defaultVariantProp := prop defaultVariants variant in
           match variantProp with
           | VNull => VNull
           | _ =>
               let variantKey :=
                 or_ (falsyToString variantProp)
                     (falsyToString defaultVariantProp) in
               prop (prop variants variant) (toPropertyKey variantKey)
           end)
        (ownProps variants) in
  clsx [VStr base; VArr getVariantClassNames; VUndef;
        prop props "class"; prop props "className"].

End Cva.
Import Cva.

(** ** The components *)

(** src/components/StatusIndicator/index.jsx: the object literal bound
    to [statusConfig] at the start of every call. *)
Definition statusConfig : Value :=
  VObj [
    ("online", VObj [("color", VStr "bg-green-500");
                     ("text", VStr "text-green-600 dark:text-green-400")]);
    ("offline", VObj [("color", VStr "bg-gray-400");
                      ("text", VStr "text-gray-500 dark:text-gray-400")]);
    ("warning", VObj [("color", VStr "bg-yellow-500");
                      ("text", VStr "text-yellow-600 dark:text-yellow-400")]);
    ("error", VObj [("color", VStr "bg-red-500");
                    ("text", VStr "text-red-600 dark:text-red-400")])
  ].

(** The badge module ([../ui/badge] for TechBadge): the arguments of its
    call of [cva]. *)
Definition badgeBase : string :=
  "inline-flex items-center rounded-full border px-2.5 py-0.5 text-xs font-semibold transition-colors focus:outline-none focus:ring-2 focus:ring-primary-500 focus:ring-offset-2".

Definition badgeVariantClasses : Value :=
  VObj [
    ("variant", VObj [
      ("default", VStr "border-transparent bg-primary-600 text-white hover:bg-primary-700");
      ("secondary", VStr "border-gray-300 bg-gray-100 text-gray-900 hover:bg-gray-200 dark:border-gray-600 dark:bg-gray-800 dark:text-gray-100 dark:hover:bg-gray-700");
      ("destructive", VStr "border-transparent bg-red-500 text-white hover:bg-red-600");
      ("outline", VStr "text-gray-700 border-gray-300 hover:bg-gray-100 dark:text-gray-300 dark:border-gray-600 dark:hover:bg-gray-800")
    ])
  ].

Definition badgeDefaultVariants : Value := VObj [("variant", VStr "default")].

Definition badgeVariants (props : Value) : string :=
  cva badgeBase badgeVariantClasses badgeDefaultVariants props.

(** A destructuring default: it applies when the prop is [undefined]. *)
Definition withDefault (p : option string) (d : string) : string :=
  match p with
  | Some v => v
  | None => d
  end.

Section Components.

(** The class-group table tailwind-merge is running with. *)
Variable classify : Classifier.

(** The body of [StatusIndicator], run on the store cell that holds the
    object bound to [statusConfig]. *)
Definition StatusIndicatorBody (status label className : option string)
  : state Value Node :=
  let status := withDefault status "online" in
  put statusConfig ;;
  selected <- gets (fun o => prop o status) ;;
  online <- gets (fun o => prop o "online") ;;
  let config := or_ selected online in
  ret (Elem "div"
         [("className",
           AStr (cn classify [VStr "flex items-center gap-2"; ofOption className]))]
         [ Elem "div"
             [("className",
               AStr (cn classify [VStr "w-2 h-2 rounded-full"; prop config "color"]))]
             [];
           match label with
           | None => Undef
           | Some l =>
               if l =? "" then Text l
               else Elem "span"
                      [("className",
                        AStr (cn classify [VStr "text-sm"; prop config "text"]))]
                      [Text l]
           end ]).

Definition StatusIndicator (status label className : option string) : Node :=
  evalState (StatusIndicatorBody status label className) VUndef.

(** [Badge({ className, variant, ...props })]: the remaining props are
    the children and whatever attributes the caller spreads in. *)
Definition Badge (className variant : option string)
  (props : list (string * AttrVal)) (children : list Node) : Node :=
  Elem "div"
    (("className",
      AStr (cn classify
              [VStr (badgeVariants (VObj [("variant", ofOption variant)]));
               ofOption className]))
       :: props)
    children.

(** src/components/TechBadge/index.jsx *)
Definition TechBadge (children : list Node) (variant className : option string)
  : Node :=
  let variant := withDefault variant "secondary" in
  Badge (Some (cn classify [VStr "text-xs transition-colors"; ofOption className]))
        (Some variant) [] children.

(** [TerminalWindow], the code block component. *)
Definition TerminalWindow (children : list Node) (title className : option string)
  : Node :=
  let title := withDefault title "Example" in
  Elem "div"
    [("className",
      AStr (cn classify [VStr "rounded-lg overflow-hidden border shadow-sm";
                         ofOption className]));
     ("style", AStyle [("borderColor", "var(--card-border-color)");
                       ("backgroundColor", "var(--ifm-background-surface-color)")])]
    [ Elem "div"
        [("className", AStr "flex items-center gap-2 border-b px-4 py-2");
         ("style", AStyle [("backgroundColor", "var(--ifm-background-surface-color)");
                           ("borderBottomColor", "var(--card-border-color)")])]
        [ Elem "div" [("className", AStr "flex gap-1.5")]
            [ Elem "div" [("className", AStr "w-3 h-3 rounded-full bg-red-400")] [];
              Elem "div" [("className", AStr "w-3 h-3 rounded-full bg-yellow-400")] [];
              Elem "div" [("className", AStr "w-3 h-3 rounded-full bg-green-400")] [] ];
          Elem "div" [("className", AStr "flex-1 text-center")]
            [ Elem "span"
                [("className", AStr "text-xs font-medium");
                 ("style", AStyle [("color", "var(--ifm-font-color-secondary)")])]
                [Text title] ];
          Elem "div" [("className", AStr "w-12")] [] ];
      Elem "div"
        [("className", AStr "p-4 font-mono text-sm");
         ("style", AStyle [("color", "var(--ifm-font-color-base)");
                           ("backgroundColor", "var(--ifm-background-color)")])]
        [ Elem "div" [("className", AStr "space-y-1")] children ] ].

End Components.

(** ** A class-group table

    The entries of tailwind-merge's default table for the utilities the
    site uses (variants separated by [:], a leading [!], no arbitrary
    values and no postfix modifiers).  The general results below hold for
    every table; this one runs the components on concrete props. *)

Module Tailwind.

Fixpoint splitOn (sep : ascii) (cur s : string) : list string :=
  match s with
  | EmptyString => [cur]
  | String c rest =>
      if Ascii.eqb c sep then cur :: splitOn sep "" rest
      else splitOn sep (cur ++ String c "") rest
  end.

Fixpoint stripPrefix (p s : string) : option string :=
  match p, s with
  | EmptyString, _ => Some s
  | String a p', String b s' => if Ascii.eqb a b then stripPrefix p' s' else None
  | _, _ => None
  end.

Definition isDigit (c : ascii) : bool :=
  let n := nat_of_ascii c in ((48 <=? n)%nat && (n <=? 57)%nat)%bool.

Fixpoint dropDigits (s : string) : string :=
  match s with
  | String c rest => if isDigit c then dropDigits rest else s
  | EmptyString => s
  end.

(** A plain decimal number: [/^\d+(\.\d+)?$/]. *)
Definition isNumber (s : string) : bool :=
  match s with
  | EmptyString => false
  | String c _ =>
      isDigit c &&
      match dropDigits s with
      | EmptyString => true
      | String "." (String d rest) =>
          isDigit d && (dropDigits rest =? "")
      | _ => false
      end
  end.

(** [/^(\d+(\.\d+)?)?(xs|sm|md|lg|xl)$/] *)
Definition isTshirtSize (s : string) : bool :=
  let sizes := ["xs"; "sm"; "md"; "lg"; "xl"] in
  mem s sizes ||
  match dropDigits s with
  | String "." rest =>
      match s, rest with
      | String c _, String d _ =>
          isDigit c && isDigit d && mem (dropDigits rest) sizes
      | _, _ => false
      end
  | tail =>
      match s with
      | String c _ => isDigit c && mem tail sizes
      | EmptyString => false
      end
  end.

Definition oneOf (l : list string) (s : string) : bool := mem s l.
Definition isAny (s : string) : bool := true.

Definition exactGroups : list (string * string) :=
  [ ("block", "display"); ("inline-block", "display"); ("inline", "display");
    ("flex", "display"); ("inline-flex", "display"); ("grid", "display");
    ("hidden", "display");
    ("border", "border-w"); ("border-b", "border-w-b");
    ("rounded", "rounded"); ("ring", "ring-w"); ("shadow", "shadow");
    ("transition", "transition"); ("outline-none", "outline-style");
    ("container", "container") ].

Definition prefixGroups : list (string * (string -> bool) * string) :=
  [ ("items-", isAny, "align-items");
    ("gap-", isAny, "gap");
    ("w-", isAny, "w"); ("h-", isAny, "h");
    ("max-w-", isAny, "max-w");
    ("mx-", isAny, "mx"); ("mb-", isAny, "mb");
    ("px-", isAny, "px"); ("py-", isAny, "py"); ("p-", isAny, "p");
    ("space-y-", isAny, "space-y");
    ("rounded-", oneOf ["none"; "sm"; "md"; "lg"; "xl"; "2xl"; "3xl"; "full"], "rounded");
    ("border-", isNumber, "border-w");
    ("border-", isAny, "border-color");
    ("text-", oneOf ["left"; "center"; "right"; "justify"; "start"; "end"], "text-alignment");
    ("text-", fun v => (v =? "base") || isTshirtSize v, "font-size");
    ("text-", isAny, "text-color");
    ("font-", oneOf ["thin"; "extralight"; "light"; "normal"; "medium";
                     "semibold"; "bold"; "extrabold"; "black"], "font-weight");
    ("font-", isAny, "font-family");
    ("leading-", isAny, "leading");
    ("transition-", oneOf ["none"; "all"; "colors"; "opacity"; "shadow"; "transform"], "transition");
    ("ring-offset-", isNumber, "ring-offset-w");
    ("ring-offset-", isAny, "ring-offset-color");
    ("ring-", isNumber, "ring-w");
    ("ring-", isAny, "ring-color");
    ("bg-", isAny, "bg-color");
    ("overflow-", oneOf ["auto"; "hidden"; "clip"; "visible"; "scroll"], "overflow");
    ("shadow-", fun v => oneOf ["inner"; "none"] v || isTshirtSize v, "shadow");
    ("shadow-", isAny, "shadow-color");
    ("flex-", oneOf ["1"; "auto"; "initial"; "none"], "flex") ].

Fixpoint exactGroup (table : list (string * string)) (base : string)
  : option string :=
  match table with
  | [] => None
  | (k, g) :: rest => if k =? base then Some g else exactGroup rest base
  end.

Fixpoint prefixGroup (table : list (string * (string -> bool) * string))
  (base : string) : option string :=
  match table with
  | [] => None
  | (p, valid, g) :: rest =>
      match stripPrefix p base with
      | Some v => if valid v then Some g else prefixGroup rest base
      | None => prefixGroup rest base
      end
  end.

Definition getClassGroupId (base : string) : option string :=
  match exactGroup exactGroups base with
  | Some g => Some g
  | None => prefixGroup prefixGroups base
  end.

Definition conflictingClassGroups (g : string) : list string :=
  if g =? "overflow" then ["overflow-x"; "overflow-y"]
  else if g =? "gap" then ["gap-x"; "gap-y"]
  else if g =? "p" then ["px"; "py"; "ps"; "pe"; "pt"; "pr"; "pb"; "pl"]
  else if g =? "px" then ["pr"; "pl"]
  else if g =? "py" then ["pt"; "pb"]
  else if g =? "font-size" then ["leading"]
  else if g =? "border-w"
       then ["border-w-s"; "border-w-e"; "border-w-t"; "border-w-r";
             "border-w-b"; "border-w-l"]
  else [].

Fixpoint insertSorted (m : string) (l : list string) : list string :=
  match l with
  | [] => [m]
  | x :: rest => if String.leb m x then m :: l else x :: insertSorted m rest
  end.

Definition sortModifiers (l : list string) : list string :=
  fold_right insertSorted [] l.

Definition classify : Classifier :=
  fun className =>
    let parts := splitOn ":" "" className in
    let modifiers := removelast parts in
    let baseWithMark := last parts "" in
    let important := match stripPrefix "!" baseWithMark with
                     | Some _ => true
                     | None => false
                     end in
    let base := match stripPrefix "!" baseWithMark with
                | Some b => b
                | None => baseWithMark
                end in
    match getClassGroupId base with
    | None => None
    | Some g =>
        Some {| modifierId :=
                  String.concat ":" (sortModifiers modifiers)
                  ++ (if important then "!" else "");
                classGroupId := g;
                conflicting := conflictingClassGroups g |}
    end.

End Tailwind.

(** ** Module-level data *)

(** An entry of [FeatureList], in the module of [HomepageFeatures]. *)
Module FeatureProps.
Record t : Type := {
  title : string;
  icon : string;
  description : Node;
  status : string
}.
End FeatureProps.

Definition FeatureList : list FeatureProps.t :=
  [ {| FeatureProps.title := "Infrastructure as Code";
       FeatureProps.icon := "⚙️";
       FeatureProps.description :=
         Frag [Text "Comprehensive guides for Kubernetes, Docker, Terraform, and cloud infrastructure. Learn to deploy and manage infrastructure at scale."];
       FeatureProps.status := "online" |};
    {| FeatureProps.title := "Stream Processing";
       FeatureProps.icon := "⚡";
       FeatureProps.description :=
         Frag [Text "Master Apache Flink, Kafka, and real-time data processing. Build scalable streaming applications with practical examples and tutorials."];
       FeatureProps.status := "online" |};
    {| FeatureProps.title := "Developer Tools";
       FeatureProps.icon := "🛠️";
       FeatureProps.description :=
         Frag [Text "Code examples, best practices, and tutorials. From Java to Python, learn the tools and techniques used by infrastructure engineers."];
       FeatureProps.status := "online" |} ].

(** An entry of [socialLinks] (src/pages/about.js). *)
Module SocialLink.
Record t : Type := {
  name : string;
  url : string;
  icon : Node
}.
End SocialLink.

Definition svgIcon (size d : string) : Node :=
  Elem "svg"
    [("viewBox", AStr "0 0 24 24"); ("width", AStr size); ("height", AStr size);
     ("fill", AStr "currentColor")]
    [Elem "path" [("d", AStr d)] []].

Definition socialLinks : list SocialLink.t :=
  [ {| SocialLink.name := "GitHub";
       SocialLink.url := "https://github.com/arunlakshman";
       SocialLink.icon := svgIcon "22" "M12 0C5.37 0 0 5.37 0 12c0 5.31 3.435 9.795 8.205 11.385.6.105.825-.255.825-.57 0-.285-.015-1.23-.015-2.235-3.015.555-3.795-.735-4.035-1.41-.135-.345-.72-1.41-1.23-1.695-.42-.225-1.02-.78-.015-.795.945-.015 1.62.87 1.845 1.23 1.08 1.815 2.805 1.305 3.495.99.105-.78.42-1.305.765-1.605-2.67-.3-5.46-1.335-5.46-5.925 0-1.305.465-2.385 1.23-3.225-.12-.3-.54-1.53.12-3.18 0 0 1.005-.315 3.3 1.23.96-.27 1.98-.405 3-.405s2.04.135 3 .405c2.295-1.56 3.3-1.23 3.3-1.23.66 1.65.24 2.88.12 3.18.765.84 1.23 1.905 1.23 3.225 0 4.605-2.805 5.625-5.475 5.925.435.375.81 1.095.81 2.22 0 1.605-.015 2.895-.015 3.3 0 .315.225.69.825.57A12.02 12.02 0 0024 12c0-6.63-5.37-12-12-12z" |};
    {| SocialLink.name := "LinkedIn";
       SocialLink.url := "https://www.linkedin.com/in/arun-laksh/";
       SocialLink.icon := svgIcon "22" "M20.447 20.452h-3.554v-5.569c0-1.328-.027-3.037-1.852-3.037-1.853 0-2.136 1.445-2.136 2.939v5.667H9.351V9h3.414v1.561h.046c.477-.9 1.637-1.85 3.37-1.85 3.601 0 4.267 2.37 4.267 5.455v6.286zM5.337 7.433a2.062 2.062 0 01-2.063-2.065 2.064 2.064 0 112.063 2.065zm1.782 13.019H3.555V9h3.564v11.452zM22.225 0H1.771C.792 0 0 .774 0 1.729v20.542C0 23.227.792 24 1.771 24h20.451C23.2 24 24 23.227 24 22.271V1.729C24 .774 23.2 0 22.222 0h.003z" |};
    {| SocialLink.name := "X / Twitter";
       SocialLink.url := "https://twitter.com/arun_lakshman";
       SocialLink.icon := svgIcon "20" "M18.244 2.25h3.308l-7.227 8.26 8.502 11.24H16.17l-5.214-6.817L4.99 21.75H1.68l7.73-8.835L1.254 2.25H8.08l4.713 6.231zm-1.161 17.52h1.833L7.084 4.126H5.117z" |} ].

(** ** What lives outside the props

    The two module-level arrays and, on the side of the framework, the
    path of the page being shown (what [useLocation] returns). *)
Record World : Type := {
  pathname : string;
  moduleFeatureList : list FeatureProps.t;
  moduleSocialLinks : list SocialLink.t
}.

Definition loaded (path : string) : World :=
  {| pathname := path;
     moduleFeatureList := FeatureList;
     moduleSocialLinks := socialLinks |}.

(** ** The blog plugin's hook

    [useVisibleBlogSidebarItems] is imported from
    [@docusaurus/plugin-content-blog/client]: framework code, embedded
    here as the plugin defines it, on the world in place of the router. *)

Module Docusaurus.

Definition lowerAscii (c : ascii) : ascii :=
  let n := nat_of_ascii c in
  if ((65 <=? n)%nat && (n <=? 90)%nat)%bool then ascii_of_nat (n + 32) else c.

Fixpoint toLowerCase (s : string) : string :=
  match s with
  | EmptyString => EmptyString
  | String c rest => String (lowerAscii c) (toLowerCase rest)
  end.

Fixpoint endsWithSlash (s : string) : bool :=
  match s with
  | EmptyString => false
  | String c EmptyString => Ascii.eqb c "/"
  | String _ rest => endsWithSlash rest
  end.

(** [isSamePath]: equal up to letter case and one trailing slash. *)
Definition normalize (path : string) : string :=
  toLowerCase (if ((path =? "") || endsWithSlash path)%bool then path
               else path ++ "/").

Definition isSamePath (path1 path2 : string) : bool :=
  normalize path1 =? normalize path2.

Definition isVisible (item : BlogSidebarItem) (path : string) : bool :=
  negb (unlisted item && negb (isSamePath (permalink item) path)).

(** [useVisibleBlogSidebarItems(items)]: the items without the unlisted
    ones, except the one whose page is being shown. *)
Definition useVisibleBlogSidebarItems (items : list BlogSidebarItem)
  : state World (list BlogSidebarItem) :=
  path <- gets pathname ;;
  ret (filter (fun item => isVisible item path) items).

End Docusaurus.
Import Docusaurus.

(** ** Components that look outside their props *)

Section Pages.

Variable classify : Classifier.

(** The class names of the sidebar's CSS module (styles.module.css). *)
Variable styles : string -> string.

(** [Feature({icon, title, description, status})] *)
Definition Feature (props : FeatureProps.t) : Node :=
  Elem "Card" [("className", AStr "h-full transition-all hover:shadow-glow-green")]
    [ Elem "CardHeader" []
        [ Elem "div" [("className", AStr "flex items-center gap-3 mb-2")]
            [ Elem "span" [("className", AStr "text-3xl")]
                [Text (FeatureProps.icon props)];
              Elem "CardTitle" [("className", AStr "font-mono")]
                [Text (FeatureProps.title props)] ];
          StatusIndicator classify (Some (FeatureProps.status props))
            (Some "ACTIVE") None ];
      Elem "CardContent" []
        [ Elem "CardDescription" [("className", AStr "leading-relaxed")]
            [FeatureProps.description props] ] ].

(** [HomepageFeatures()]: one [Feature] per entry of the module's
    [FeatureList].  The [key] of a list item is React's bookkeeping and
    not part of the markup. *)
Definition HomepageFeatures : state World Node :=
  entries <- gets moduleFeatureList ;;
  ret (Elem "section"
         [("className", AStr "py-20");
          ("style", AStyle [("backgroundColor", "var(--ifm-background-surface-color)")])]
         [ Elem "div" [("className", AStr "container mx-auto px-4")]
             [ Elem "div" [("className", AStr "text-center mb-12")]
                 [ Elem "Heading"
                     [("as", AStr "h2");
                      ("className", AStr "text-4xl font-bold mb-4 font-mono");
                      ("style", AStyle [("color", "var(--terminal-green)")])]
                     [Text "Features"];
                   Elem "p"
                     [("className", AStr "font-mono");
                      ("style", AStyle [("color", "var(--ifm-font-color-secondary)")])]
                     [Text "Everything you need to build and deploy infrastructure"] ];
               Elem "div"
                 [("className", AStr "grid md:grid-cols-3 gap-6 max-w-6xl mx-auto")]
                 (map Feature entries) ] ]).

(** [About()] of src/pages/about.js. *)
Definition About : state World Node :=
  entries <- gets moduleSocialLinks ;;
  ret (Elem "Layout" [("title", AStr "About"); ("description", AStr "About Arun")]
         [ Elem "main" [("className", AStr "about-page")]
             [ Elem "div" [("className", AStr "about-container")]
                 [ Elem "div" [("className", AStr "about-header")]
                     [ Elem "h1" [("className", AStr "about-name")]
                         [Text "Arun Lakshman Ravichandran"];
                       Elem "p" [("className", AStr "about-role")]
                         [Text "Software Engineer, AWS"] ];
                   Elem "div" [("className", AStr "about-content")]
                     [ Elem "section" [("className", AStr "about-section")]
                         [ Elem "div" [("className", AStr "about-social-links")]
                             (map (fun link =>
                                     Elem "a"
                                       [("href", AStr (SocialLink.url link));
                                        ("target", AStr "_blank");
                                        ("rel", AStr "noopener noreferrer");
                                        ("className", AStr "about-social-link");
                                        ("title", AStr (SocialLink.name link))]
                                       [ SocialLink.icon link;
                                         Elem "span" [] [Text (SocialLink.name link)] ])
                                  entries) ];
                       Elem "section" [("className", AStr "about-section")]
                         [ Elem "p" [("className", AStr "about-bio")]
                             [Text "Software engineer with over 11 years of experience building scalable and distributed systems. Currently based in Seattle, WA."];
                           Elem "p" [("className", AStr "about-bio")]
                             [Text "Passionate about distributed systems, stream processing, and concurrent programming."] ] ] ] ] ]).

(** src/theme/BlogSidebar/Mobile/index.js *)
Definition ListComponent (items : list BlogSidebarItem) : Node :=
  Elem "BlogSidebarItemList"
    [("items", AItems items);
     ("ulClassName", AStr "menu__list");
     ("liClassName", AStr "menu__list-item");
     ("linkClassName", AStr "menu__link");
     ("linkActiveClassName", AStr "menu__link--active")]
    [].

(** [BlogSidebarMobileSecondaryMenu({sidebar})], on [sidebar.items]. *)
Definition BlogSidebarMobileSecondaryMenu (sidebarItems : list BlogSidebarItem)
  : state World Node :=
  items <- useVisibleBlogSidebarItems sidebarItems ;;
  ret (Frag
         [ Elem "ul" [("className", AStr "menu__list")]
             [ Elem "li" [("className", AStr "menu__list-item")]
                 [ Elem "Link" [("to", AStr "/about"); ("className", AStr "menu__link")]
                     [Text "About"] ] ];
           Elem "hr" [("className", AStr (styles "divider"))] [];
           Elem "BlogSidebarContent"
             [("items", AItems items);
              ("ListComponent", AComp "ListComponent");
              ("yearGroupHeadingClassName", AStr (styles "yearGroupHeading"))]
             [] ]).

(** [BlogSidebarMobile(props)]: hands the menu over to the navbar. *)
Definition BlogSidebarMobile (sidebarItems : list BlogSidebarItem) : Node :=
  Elem "NavbarSecondaryMenuFiller"
    [("component", AComp "BlogSidebarMobileSecondaryMenu");
     ("props", AItems sidebarItems)]
    [].

End Pages.

(** ** Vocabulary of the statements *)

(** The coloured dot: the first child of the indicator. *)
Definition dot (indicator : Node) : Node := nth 0 (childrenOf indicator) Undef.

(** The label: the children after the dot. *)
Definition afterDot (indicator : Node) : list Node := tl (childrenOf indicator).

(** Every class of the caller that overrides a base class is in the
    merged class list, and the base class is not. *)
Definition callerWins (classify : Classifier) (base className : string) : Prop :=
  forall c b : string,
    In c (words className) ->
    In b (words base) ->
    overrides classify c b = true ->
    In c (words (cn classify [VStr base; VStr className]))
    /\ ~ In b (words (cn classify [VStr base; VStr className])).

(** A render that neither reads nor writes what lies outside its props:
    whatever page is being shown it returns the same markup, and it
    leaves the world as it found it. *)
Definition stateless {P : Type} (component : P -> state World Node) : Prop :=
  forall (props : P) (path1 path2 : string),
    evalState (component props) (loaded path1)
    = evalState (component props) (loaded path2)
    /\ execState (component props) (loaded path1) = loaded path1.

Definition injectsNavigationLinks (markup : Node) : bool :=
  negb (length (links markup) =? 0)%nat.

(** ** Vocabulary of the further properties *)

(** The class words one input of [clsx] contributes. *)
Definition classWords (v : Value) : list string :=
  if truthy v then words (toVal v) else [].

(** The conflict keys (modifiers and class group) of the classes of a
    list that the table knows. *)
Definition groupKeys (classify : Classifier) (classes : list string)
  : list string :=
  flat_map (fun c => match classify c with
                     | Some i => [classId i]
                     | None => []
                     end)
           classes.

(** The span that shows the label of an indicator. *)
Definition labelSpan (indicator : Node) : Node := nth 0 (afterDot indicator) Undef.

Definition attrOf (name : string) (n : Node) : option AttrVal :=
  match n with
  | Elem _ attrs _ => attr attrs name
  | _ => None
  end.

(** The items the sidebar menu hands to [BlogSidebarContent]. *)
Definition menuItems (menu : Node) : list BlogSidebarItem :=
  flat_map (fun content => match attrOf "items" content with
                           | Some (AItems items) => items
                           | _ => []
                           end)
           (elements "BlogSidebarContent" menu).

(** The cards of the feature grid: the children of the second child of
    the container the section holds. *)
Definition cardsOf (home : Node) : list Node :=
  childrenOf (nth 1 (childrenOf (nth 0 (childrenOf home) Undef)) Undef).

(** The header of a feature card and the status indicator in it. *)
Definition headerOf (card : Node) : Node := nth 0 (childrenOf card) Undef.

Definition indicatorOf (card : Node) : Node :=
  nth 1 (childrenOf (headerOf card)) Undef.

(** The text of the title bar of a terminal window. *)
Definition titleTextOf (window : Node) : list Node :=
  flat_map childrenOf (elements "span" (nth 0 (childrenOf window) Undef)).

(** ** The result cache of tailwind-merge

    [twMerge] keeps the results of earlier calls in a cache of two
    generations ([createLruCache]): a lookup that misses the young
    generation and hits the old one moves the entry over, and a full
    young generation becomes the old one. *)

Module LruCache.

Record t : Type := {
  maxCacheSize : nat;
  cacheSize : nat;
  cache : list (string * string);
  previousCache : list (string * string)
}.

(** [Map.prototype.get] *)
Fixpoint mapGet (m : list (string * string)) (key : string) : option string :=
  match m with
  | [] => None
  | (k, v) :: rest => if k =? key then Some v else mapGet rest key
  end.

(** [Map.prototype.set]: a key that is present keeps its place. *)
Fixpoint mapSet (m : list (string * string)) (key value : string)
  : list (string * string) :=
  match m with
  | [] => [(key, value)]
  | (k, v) :: rest =>
      if k =? key then (k, value) :: rest else (k, v) :: mapSet rest key value
  end.

Definition mapHas (m : list (string * string)) (key : string) : bool :=
  match mapGet m key with
  | Some _ => true
  | None => false
  end.

Definition update (key value : string) (c : t) : t :=
  let filled := mapSet (cache c) key value in
  let size := S (cacheSize c) in
  if (maxCacheSize c <? size)%nat
  then {| maxCacheSize := maxCacheSize c; cacheSize := 0;
          cache := []; previousCache := filled |}
  else {| maxCacheSize := maxCacheSize c; cacheSize := size;
          cache := filled; previousCache := previousCache c |}.

Definition get (key : string) (c : t) : option string * t :=
  if (maxCacheSize c <? 1)%nat then (None, c)
  else
    match mapGet (cache c) key with
    | Some value => (Some value, c)
    | None =>
        match mapGet (previousCache c) key with
        | Some value => (Some value, update key value c)
        | None => (None, c)
        end
    end.

Definition set (key value : string) (c : t) : t :=
  if (maxCacheSize c <? 1)%nat then c
  else if mapHas (cache c) key
       then {| maxCacheSize := maxCacheSize c; cacheSize := cacheSize c;
               cache := mapSet (cache c) key value;
               previousCache := previousCache c |}
       else update key value c.

(** The cache of a [twMerge] that has not been called yet; 500 is the
    [cacheSize] of the default configuration. *)
Definition created : t :=
  {| maxCacheSize := 500; cacheSize := 0; cache := []; previousCache := [] |}.

End LruCache.

(** ** Renders with the cache in sight

    What a render can reach outside its props: the world, and the cache
    of the one [twMerge] that every [cn] goes through. *)
Record Runtime : Type := {
  world : World;
  mergeCache : LruCache.t
}.

Definition started (path : string) : Runtime :=
  {| world := loaded path; mergeCache := LruCache.created |}.

(** The renders of the About page and of the sidebar menu above, under
    names that stay in reach where [Live] has its own. *)
Definition worldAbout : state World Node := About.

Definition worldMenu (styles : string -> string)
  (sidebarItems : list BlogSidebarItem) : state World Node :=
  BlogSidebarMobileSecondaryMenu styles sidebarItems.

Module Live.

Section Live.

Variable classify : Classifier.

Variable styles : string -> string.

(** [tailwindMerge(classList)]: the cached result when there is one and
    it is not the empty string, else the merged class list, which is
    put into the cache. *)
Definition twMerge (classList : string) : state Runtime string :=
  mkState (fun r =>
    let looked := LruCache.get classList (mergeCache r) in
    let merged :=
      let result := mergeClassList classify classList in
      (result,
       {| world := world r;
          mergeCache := LruCache.set classList result (snd looked) |}) in
    match fst looked with
    | Some cachedResult =>
        if cachedResult =? "" then merged
        else (cachedResult, {| world := world r; mergeCache := snd looked |})
    | None => merged
    end).

(** src/lib/utils.js *)
Definition cn (inputs : list Value) : state Runtime string :=
  twMerge (clsx [VArr inputs]).

(** A render that looks at the world only. *)
Definition inWorld {A : Type} (render : state World A) : state Runtime A :=
  mkState (fun r =>
    let out := runState render (world r) in
    (fst out, {| world := snd out; mergeCache := mergeCache r |})).

(** The class strings are computed in the order of the JSX: the element
    itself, then its children. *)
Definition StatusIndicator (status label className : option string)
  : state Runtime Node :=
  let status := withDefault status "online" in
  let config := or_ (prop statusConfig status) (prop statusConfig "online") in
  root <- cn [VStr "flex items-center gap-2"; ofOption className] ;;
  dotClass <- cn [VStr "w-2 h-2 rounded-full"; prop config "color"] ;;
  shownLabel <-
    match label with
    | None => ret Undef
    | Some l =>
        if l =? "" then ret (Text l)
        else
          spanClass <- cn [VStr "text-sm"; prop config "text"] ;;
          ret (Elem "span" [("className", AStr spanClass)] [Text l])
    end ;;
  ret (Elem "div" [("className", AStr root)]
         [ Elem "div" [("className", AStr dotClass)] []; shownLabel ]).

Definition Badge (className variant : option string)
  (props : list (string * AttrVal)) (children : list Node)
  : state Runtime Node :=
  merged <- cn [VStr (badgeVariants (VObj [("variant", ofOption variant)]));
                ofOption className] ;;
  ret (Elem "div" (("className", AStr merged) :: props) children).

Definition TechBadge (children : list Node) (variant className : option string)
  : state Runtime Node :=
  let variant := withDefault variant "secondary" in
  own <- cn [VStr "text-xs transition-colors"; ofOption className] ;;
  Badge (Some own) (Some variant) [] children.

Definition TerminalWindow (children : list Node) (title className : option string)
  : state Runtime Node :=
  let title := withDefault title "Example" in
  root <- cn [VStr "rounded-lg overflow-hidden border shadow-sm";
              ofOption className] ;;
  ret (Elem "div"
         [("className", AStr root);
          ("style", AStyle [("borderColor", "var(--card-border-color)");
                            ("backgroundColor", "var(--ifm-background-surface-color)")])]
         [ Elem "div"
             [("className", AStr "flex items-center gap-2 border-b px-4 py-2");
              ("style", AStyle [("backgroundColor", "var(--ifm-background-surface-color)");
                                ("borderBottomColor", "var(--card-border-color)")])]
             [ Elem "div" [("className", AStr "flex gap-1.5")]
                 [ Elem "div" [("className", AStr "w-3 h-3 rounded-full bg-red-400")] [];
                   Elem "div" [("className", AStr "w-3 h-3 rounded-full bg-yellow-400")] [];
                   Elem "div" [("className", AStr "w-3 h-3 rounded-full bg-green-400")] [] ];
               Elem "div" [("className", AStr "flex-1 text-center")]
                 [ Elem "span"
                     [("className", AStr "text-xs font-medium");
                      ("style", AStyle [("color", "var(--ifm-font-color-secondary)")])]
                     [Text title] ];
               Elem "div" [("className", AStr "w-12")] [] ];
           Elem "div"
             [("className", AStr "p-4 font-mono text-sm");
              ("style", AStyle [("color", "var(--ifm-font-color-base)");
                                ("backgroundColor", "var(--ifm-background-color)")])]
             [ Elem "div" [("className", AStr "space-y-1")] children ] ]).

Definition Feature (props : FeatureProps.t) : state Runtime Node :=
  indicator <- StatusIndicator (Some (FeatureProps.status props))
                 (Some "ACTIVE") None ;;
  ret (Elem "Card" [("className", AStr "h-full transition-all hover:shadow-glow-green")]
         [ Elem "CardHeader" []
             [ Elem "div" [("className", AStr "flex items-center gap-3 mb-2")]
                 [ Elem "span" [("className", AStr "text-3xl")]
                     [Text (FeatureProps.icon props)];
                   Elem "CardTitle" [("className", AStr "font-mono")]
                     [Text (FeatureProps.title props)] ];
               indicator ];
           Elem "CardContent" []
             [ Elem "CardDescription" [("className", AStr "leading-relaxed")]
                 [FeatureProps.description props] ] ]).

(** The features of a list, rendered one after the other. *)
Fixpoint features (entries : list FeatureProps.t) : state Runtime (list Node) :=
  match entries with
  | [] => ret []
  | entry :: rest =>
      card <- Feature entry ;;
      cards <- features rest ;;
      ret (card :: cards)
  end.

Definition HomepageFeatures : state Runtime Node :=
  entries <- gets (fun r => moduleFeatureList (world r)) ;;
  cards <- features entries ;;
  ret (Elem "section"
         [("className", AStr "py-20");
          ("style", AStyle [("backgroundColor", "var(--ifm-background-surface-color)")])]
         [ Elem "div" [("className", AStr "container mx-auto px-4")]
             [ Elem "div" [("className", AStr "text-center mb-12")]
                 [ Elem "Heading"
                     [("as", AStr "h2");
                      ("className", AStr "text-4xl font-bold mb-4 font-mono");
                      ("style", AStyle [("color", "var(--terminal-green)")])]
                     [Text "Features"];
                   Elem "p"
                     [("className", AStr "font-mono");
                      ("style", AStyle [("color", "var(--ifm-font-color-secondary)")])]
                     [Text "Everything you need to build and deploy infrastructure"] ];
               Elem "div"
                 [("className", AStr "grid md:grid-cols-3 gap-6 max-w-6xl mx-auto")]
                 cards ] ]).

(** The About page and the sidebar menu call no [cn]. *)
Definition About : state Runtime Node := inWorld worldAbout.

Definition BlogSidebarMobileSecondaryMenu (sidebarItems : list BlogSidebarItem)
  : state Runtime Node :=
  inWorld (worldMenu styles sidebarItems).

(** Every cached result is the merged class list of its key. *)
Definition sound (m : list (string * string)) : Prop :=
  forall key value,
    LruCache.mapGet m key = Some value -> value = mergeClassList classify key.

Definition consistent (c : LruCache.t) : Prop :=
  sound (LruCache.cache c) /\ sound (LruCache.previousCache c).

(** A render that gives the markup [markup] makes of the world, leaves
    the world alone, and leaves a consistent cache consistent. *)
Definition renders {A : Type} (render : state Runtime A) (markup : World -> A)
  : Prop :=
  forall r : Runtime,
    consistent (mergeCache r) ->
    fst (runState render r) = markup (world r)
    /\ world (snd (runState render r)) = world r
    /\ consistent (mergeCache (snd (runState render r))).

End Live.

End Live.


(** * Properties *)

(** ** Class lists *)

Module ClassListFacts.

Lemma eqb_empty_append_char (cur : string) (c : ascii) :
  (cur ++ String c "" =? "") = false.
Proof. destruct cur; reflexivity. Qed.

Lemma spaceFree_append (a b : string) :
  spaceFree (a ++ b) = (spaceFree a && spaceFree b)%bool.
Proof.
  induction a as [|c a IH]; simpl; [reflexivity|].
  rewrite IH. now rewrite andb_assoc.
Qed.

Lemma append_assoc_char (cur : string) (c : ascii) (w : string) :
  (cur ++ String c "") ++ w = cur ++ String c w.
Proof. induction cur as [|d cur IH]; simpl; [reflexivity | now rewrite IH]. Qed.

Lemma append_empty_r (s : string) : s ++ "" = s.
Proof. induction s as [|c s IH]; simpl; [reflexivity | now rewrite IH]. Qed.

(** A blank closes the current word. *)
Lemma wordsFrom_blank (a b cur : string) :
  wordsFrom cur (a ++ String " " b) = (wordsFrom cur a ++ wordsFrom "" b)%list.
Proof.
  revert cur. induction a as [|c a IH]; intros cur; simpl.
  - reflexivity.
  - destruct (isSpace c).
    + rewrite IH. now rewrite app_assoc.
    + apply IH.
Qed.

Lemma wordsFrom_spaceFree (w cur : string) :
  spaceFree w = true -> wordsFrom cur w = flush (cur ++ w).
Proof.
  revert cur. induction w as [|c w IH]; intros cur Hw; simpl in *.
  - now rewrite append_empty_r.
  - apply andb_prop in Hw as [Hc Hw].
    apply negb_true_iff in Hc. rewrite Hc.
    rewrite IH by assumption. now rewrite append_assoc_char.
Qed.

Lemma words_blank (a b : string) :
  words (a ++ " " ++ b) = (words a ++ words b)%list.
Proof. unfold words. apply wordsFrom_blank. Qed.

Lemma words_word (w : string) : isWord w = true -> words w = [w].
Proof.
  unfold isWord, words. intros H. apply andb_prop in H as [Hne Hsf].
  rewrite wordsFrom_spaceFree by assumption. simpl.
  unfold flush. apply negb_true_iff in Hne. now rewrite Hne.
Qed.

(** Splitting what was joined gives the words back. *)
Lemma words_unwords (l : list string) :
  Forall (fun w => isWord w = true) l -> words (unwords l) = l.
Proof.
  unfold unwords. induction 1 as [|w l Hw Hl IH]; [reflexivity|].
  destruct l as [|x l].
  - simpl. now apply words_word.
  - change (String.concat " " (w :: x :: l))
      with (w ++ " " ++ String.concat " " (x :: l)).
    rewrite words_blank, IH. now rewrite words_word.
Qed.

Lemma wordsFrom_isWord (s cur : string) :
  spaceFree cur = true ->
  Forall (fun w => isWord w = true) (wordsFrom cur s).
Proof.
  assert (Hflush : forall c, spaceFree c = true ->
            Forall (fun w => isWord w = true) (flush c)).
  { intros c Hc. unfold flush. destruct (c =? "") eqn:E; constructor.
    - unfold isWord. now rewrite E, Hc.
    - constructor. }
  revert cur. induction s as [|c s IH]; intros cur Hcur; simpl.
  - now apply Hflush.
  - destruct (isSpace c) eqn:E.
    + apply Forall_app. split; [now apply Hflush | now apply IH].
    + apply IH. rewrite spaceFree_append, Hcur. simpl. now rewrite E.
Qed.

Lemma words_isWord (s : string) : Forall (fun w => isWord w = true) (words s).
Proof. now apply wordsFrom_isWord. Qed.

End ClassListFacts.
Import ClassListFacts.

(** ** The merge loop *)

Module TwMergeFacts.

Section Loop.

Variable classify : Classifier.

Lemma mem_In (x : string) (l : list string) : mem x l = true <-> In x l.
Proof.
  unfold mem. rewrite existsb_exists. split.
  - intros [y [Hy E]]. apply String.eqb_eq in E. now subst.
  - intros H. exists x. split; [assumption | apply String.eqb_refl].
Qed.

(** The loop keeps classes, it never makes one up. *)
Lemma mergeFromEnd_incl (visited inConflict : list string) (c : string) :
  In c (mergeFromEnd classify inConflict visited) -> In c visited.
Proof.
  revert inConflict. induction visited as [|x l IH]; intros seen; simpl.
  - auto.
  - destruct (classify x) as [i|].
    + destruct (mem (classId i) seen); simpl.
      * intros H. right. eapply IH, H.
      * intros [H|H]; [now left | right; eapply IH, H].
    + simpl. intros [H|H]; [now left | right; eapply IH, H].
Qed.

(** The class visited first, the last of the class list, is kept. *)
Lemma mergeFromEnd_first (x : string) (earlier : list string) :
  exists kept, mergeFromEnd classify [] (x :: earlier) = x :: kept.
Proof.
  simpl. destruct (classify x) as [i|]; simpl; eauto.
Qed.

Lemma mergeFromEnd_app (xs ys inConflict : list string) :
  mergeFromEnd classify inConflict (xs ++ ys)%list
  = (mergeFromEnd classify inConflict xs
     ++ mergeFromEnd classify (conflictAfter classify inConflict xs) ys)%list.
Proof.
  revert inConflict. induction xs as [|x xs IH]; intros seen; simpl.
  - reflexivity.
  - destruct (classify x) as [i|].
    + destruct (mem (classId i) seen); simpl; now rewrite IH.
    + simpl. now rewrite IH.
Qed.

Lemma conflictAfter_mono (visited inConflict : list string) (id : string) :
  In id inConflict -> In id (conflictAfter classify inConflict visited).
Proof.
  revert inConflict. induction visited as [|x l IH]; intros seen H; simpl.
  - assumption.
  - destruct (classify x) as [i|]; [|now apply IH].
    destruct (mem (classId i) seen); apply IH; [assumption|].
    apply in_or_app. now left.
Qed.

(** A kept class leaves its group and the groups it overrides in the
    conflict list. *)
Lemma kept_claims (visited inConflict : list string) (c : string) (i : ClassInfo) :
  In c (mergeFromEnd classify inConflict visited) ->
  classify c = Some i ->
  forall id, In id (claimed i) ->
             In id (conflictAfter classify inConflict visited).
Proof.
  revert inConflict. induction visited as [|x l IH]; intros seen Hin Hc id Hid;
    simpl in *.
  - contradiction.
  - destruct (classify x) as [j|] eqn:Hx.
    + destruct (mem (classId j) seen) eqn:Hm.
      * eapply IH; eauto.
      * destruct Hin as [E|Hin].
        -- subst x. rewrite Hc in Hx. injection Hx as <-.
           apply conflictAfter_mono. apply in_or_app. now right.
        -- eapply IH; eauto.
    + destruct Hin as [E|Hin].
      * subst x. congruence.
      * eapply IH; eauto.
Qed.

(** A class whose group is in the conflict list is dropped. *)
Lemma conflicting_dropped (visited inConflict : list string) (b : string)
  (i : ClassInfo) :
  classify b = Some i ->
  In (classId i) inConflict ->
  ~ In b (mergeFromEnd classify inConflict visited).
Proof.
  revert inConflict. induction visited as [|x l IH]; intros seen Hb Hseen;
    simpl.
  - auto.
  - destruct (classify x) as [j|] eqn:Hx.
    + destruct (mem (classId j) seen) eqn:Hm.
      * now apply IH.
      * intros [E|Hin].
        -- subst x. rewrite Hb in Hx. injection Hx as <-.
           apply mem_In in Hseen. congruence.
        -- revert Hin. apply IH; [assumption|]. apply in_or_app. now left.
    + intros [E|Hin].
      * subst x. congruence.
      * revert Hin. now apply IH.
Qed.

(** The class list of a merged string. *)
Lemma words_twMerge (s : string) :
  words (twMerge classify s)
  = rev (mergeFromEnd classify [] (rev (words s))).
Proof.
  unfold twMerge, mergeClassList. apply words_unwords.
  apply Forall_forall. intros w Hw.
  apply in_rev in Hw. apply mergeFromEnd_incl in Hw. apply in_rev in Hw.
  pose proof (words_isWord s) as H. rewrite Forall_forall in H. now apply H.
Qed.

Lemma twMerge_incl (s c : string) :
  In c (words (twMerge classify s)) -> In c (words s).
Proof.
  rewrite words_twMerge. intros H.
  apply in_rev in H. apply mergeFromEnd_incl in H. now apply in_rev in H.
Qed.

(** The last class of a class list survives the merge. *)
Lemma twMerge_keeps_last (s c : string) (front : list string) :
  words s = (front ++ [c])%list -> In c (words (twMerge classify s)).
Proof.
  intros H. rewrite words_twMerge, H, rev_app_distr. simpl.
  destruct (mergeFromEnd_first c (rev front)) as [kept E].
  simpl in E. rewrite E. apply in_rev. rewrite rev_involutive. now left.
Qed.

End Loop.

End TwMergeFacts.
Import TwMergeFacts.

(** ** clsx and cn *)

Module CnFacts.

(** Handing [clsx] the array of arguments is handing it the arguments. *)
Lemma clsx_array (inputs : list Value) : clsx [VArr inputs] = clsx inputs.
Proof.
  change (clsx [VArr inputs])
    with (if clsx inputs =? "" then "" else push "" (clsx inputs)).
  destruct (clsx inputs =? "") eqn:E.
  - apply String.eqb_eq in E. now rewrite E.
  - reflexivity.
Qed.

Lemma clsx_pair (a : string) (b : option string) :
  clsx [VStr a; ofOption b]
  = match b with
    | None => a
    | Some s => if a =? "" then s else if s =? "" then a else a ++ " " ++ s
    end.
Proof.
  unfold clsx, push. destruct b as [s|]; simpl.
  - destruct (a =? "") eqn:Ea; simpl.
    + apply String.eqb_eq in Ea. subst a.
      destruct (s =? "") eqn:Es; simpl; [|reflexivity].
      apply String.eqb_eq in Es. now subst s.
    + rewrite ?Ea. destruct (s =? "") eqn:Es; simpl; rewrite ?Es, ?Ea;
        reflexivity.
  - destruct (a =? "") eqn:Ea; simpl; rewrite ?Ea; [|reflexivity].
    apply String.eqb_eq in Ea. now subst a.
Qed.

(** The class list [cn] merges when given base classes and a caller's
    class string. *)
Lemma words_clsx_pair (a : string) (b : option string) :
  words (clsx [VStr a; ofOption b]) = (words a ++ words (withDefault b ""))%list.
Proof.
  rewrite clsx_pair. destruct b as [s|]; simpl.
  - destruct (a =? "") eqn:Ea.
    + apply String.eqb_eq in Ea. now subst a.
    + destruct (s =? "") eqn:Es.
      * apply String.eqb_eq in Es. subst s. simpl. now rewrite app_nil_r.
      * apply words_blank.
  - change (words "") with (@nil string). now rewrite app_nil_r.
Qed.

Lemma words_cn_pair (classify : Classifier) (a : string) (b : option string) :
  words (cn classify [VStr a; ofOption b])
  = rev (mergeFromEnd classify []
           (rev (words (withDefault b "")) ++ rev (words a))%list).
Proof.
  unfold cn. rewrite clsx_array, words_twMerge, words_clsx_pair.
  now rewrite rev_app_distr.
Qed.

End CnFacts.
Import CnFacts.

(** ** StatusIndicator *)

(** Run a component down to its markup, leaving the class strings as
    calls of [cn]. *)
Ltac render := cbn -[cn prop or_ statusConfig badgeVariants].

Lemma dot_className (classify : Classifier) (status : string)
  (label className : option string) :
  classNameOf (dot (StatusIndicator classify (Some status) label className))
  = cn classify
      [VStr "w-2 h-2 rounded-full";
       prop (or_ (prop statusConfig status) (prop statusConfig "online")) "color"].
Proof. render. reflexivity. Qed.

(** C1: for each of the four statuses the dot of the indicator is a
    [div] whose class list includes the colour filed under that status:
    bg-green-500 for online, bg-gray-400 for offline, bg-yellow-500 for
    warning and bg-red-500 for error. *)
Theorem status_colour_on_dot :
  forall (classify : Classifier) (label className : option string),
    let shown status :=
      dot (StatusIndicator classify (Some status) label className) in
    (tagOf (shown "online") = Some "div"
     /\ In "bg-green-500" (classesOf (shown "online")))
    /\ (tagOf (shown "offline") = Some "div"
        /\ In "bg-gray-400" (classesOf (shown "offline")))
    /\ (tagOf (shown "warning") = Some "div"
        /\ In "bg-yellow-500" (classesOf (shown "warning")))
    /\ (tagOf (shown "error") = Some "div"
        /\ In "bg-red-500" (classesOf (shown "error"))).
Proof.
  intros classify label className shown. unfold shown, classesOf.
  repeat split;
    try (render; reflexivity);
    rewrite dot_className;
    apply twMerge_keeps_last with (front := ["w-2"; "h-2"; "rounded-full"]);
    vm_compute; reflexivity.
Qed.


(** C2, at the status "constructor": the lookup finds the constructor
    every object inherits, the fallback to online is skipped, and the dot
    is merged from the base classes alone, so that it carries no colour
    while the dot of online carries bg-green-500. *)
Theorem inherited_status_has_no_colour :
  forall (classify : Classifier) (label className : option string),
    let shown status :=
      dot (StatusIndicator classify (Some status) label className) in
    classNameOf (shown "constructor") = twMerge classify "w-2 h-2 rounded-full"
    /\ ~ In "bg-green-500" (classesOf (shown "constructor"))
    /\ In "bg-green-500" (classesOf (shown "online"))
    /\ StatusIndicator classify (Some "constructor") label className
       <> StatusIndicator classify (Some "online") label className.
Proof.
  intros classify label className shown.
  assert (Hname : classNameOf (shown "constructor")
                  = twMerge classify "w-2 h-2 rounded-full").
  { unfold shown. rewrite dot_className. unfold cn. f_equal. }
  assert (Hno : ~ In "bg-green-500" (classesOf (shown "constructor"))).
  { unfold classesOf. rewrite Hname. intros H. apply twMerge_incl in H.
    simpl in H. repeat (destruct H as [H|H]; [discriminate|]). exact H. }
  assert (Hyes : In "bg-green-500" (classesOf (shown "online"))).
  { unfold shown, classesOf. rewrite dot_className.
    apply twMerge_keeps_last with (front := ["w-2"; "h-2"; "rounded-full"]).
    reflexivity. }
  repeat split; try assumption.
  intros E. apply Hno. unfold shown. rewrite E. exact Hyes.
Qed.

(** C8: for every status, an indicator whose label is omitted or empty
    shows the dot and no span; one with a non-empty label shows the dot
    followed by exactly one span, whose text is the label. *)
Theorem label_span_iff_truthy :
  forall (classify : Classifier) (status className : option string),
    let shown label := StatusIndicator classify status label className in
    (afterDot (shown None) = [] /\ elements "span" (shown None) = []
     /\ tagOf (dot (shown None)) = Some "div")
    /\ (afterDot (shown (Some "")) = [] /\ elements "span" (shown (Some "")) = []
        /\ tagOf (dot (shown (Some ""))) = Some "div")
    /\ forall (c : ascii) (rest : string),
         let label := String c rest in
         exists attrs,
           afterDot (shown (Some label)) = [Elem "span" attrs [Text label]]
           /\ elements "span" (shown (Some label))
              = [Elem "span" attrs [Text label]]
           /\ tagOf (dot (shown (Some label))) = Some "div".
Proof.
  intros classify status className shown.
  split; [|split].
  - repeat split; render; reflexivity.
  - repeat split; render; reflexivity.
  - intros c rest label. eexists. repeat split; render; reflexivity.
Qed.

(** ** cn *)

(** C3: on every list of inputs, [cn] is [twMerge] applied to the [clsx]
    of those inputs, and nothing else. *)
Theorem cn_is_twMerge_after_clsx :
  forall (classify : Classifier) (inputs : list Value),
    cn classify inputs = twMerge classify (clsx inputs).
Proof.
  intros classify inputs. unfold cn. now rewrite clsx_array.
Qed.

(** ** Badge and TechBadge *)

(** Close a goal whose hypothesis puts a class in a list of other
    classes. *)
Ltac absent H :=
  vm_compute in H;
  repeat match type of H with
         | _ \/ _ => destruct H as [H|H]
         | _ = _ => discriminate H
         | False => exact H
         end.

Lemma In_words_cn_pair (classify : Classifier) (a : string) (b : option string)
  (c : string) :
  In c (words (cn classify [VStr a; ofOption b])) ->
  In c (words a) \/ In c (words (withDefault b "")).
Proof.
  unfold cn. rewrite clsx_array. intros H.
  apply twMerge_incl in H. rewrite words_clsx_pair in H.
  now apply in_app_or in H.
Qed.

(** C10: left without a variant, [Badge] takes the classes of "default",
    bg-primary-600 among them, while [TechBadge] asks [Badge] for
    "secondary", whose classes follow the base classes and do not
    include bg-primary-600; the two render differently.  Under the
    default class groups the rendered [Badge] keeps bg-primary-600 and
    the rendered [TechBadge] keeps every class of "secondary". *)
Theorem badge_and_techBadge_defaults :
  forall (classify : Classifier) (children : list Node),
    (badgeVariants (VObj [("variant", VUndef)])
     = badgeVariants (VObj [("variant", VStr "default")])
     /\ In "bg-primary-600" (words (badgeVariants (VObj [("variant", VUndef)]))))
    /\ (forall className,
          TechBadge classify children None className
          = Badge classify
              (Some (cn classify [VStr "text-xs transition-colors";
                                  ofOption className]))
              (Some "secondary") [] children)
    /\ (badgeVariants (VObj [("variant", VStr "secondary")])
        = badgeBase ++ " "
          ++ "border-gray-300 bg-gray-100 text-gray-900 hover:bg-gray-200 dark:border-gray-600 dark:bg-gray-800 dark:text-gray-100 dark:hover:bg-gray-700"
        /\ ~ In "bg-primary-600" (classesOf (TechBadge classify children None None)))
    /\ Badge classify None None [] children
       <> TechBadge classify children None None
    /\ In "bg-primary-600"
         (classesOf (Badge Tailwind.classify None None [] children))
    /\ incl (words (toVal (prop (prop badgeVariantClasses "variant") "secondary")))
            (classesOf (TechBadge Tailwind.classify children None None)).
Proof.
  intros classify children.
  assert (Hsecondary : forall c,
            In c (classesOf (TechBadge classify children None None)) ->
            In c (words (badgeVariants (VObj [("variant", VStr "secondary")])))
            \/ In c ["text-xs"; "transition-colors"]).
  { intros c H. unfold classesOf in H. cbn -[cn badgeVariants words] in H.
    apply (In_words_cn_pair classify _ (Some _)) in H.
    destruct H as [H|H]; [now left | right].
    cbn [withDefault] in H.
    apply (In_words_cn_pair classify _ None) in H.
    destruct H as [H|H]; [exact H | destruct H]. }
  split; [split|split; [|split; [split|]; [| |split; [|split]]]].
  - reflexivity.
  - vm_compute. tauto.
  - reflexivity.
  - reflexivity.
  - intros H. apply Hsecondary in H. absent H.
  - intros E.
    assert (Hin : In "hover:bg-primary-700"
                    (classesOf (Badge classify None None [] children))).
    { unfold classesOf. cbn -[cn badgeVariants words].
      unfold cn. rewrite clsx_array, (clsx_pair _ None).
      eapply twMerge_keeps_last. vm_compute.
      match goal with
      | |- ?l = _ => change l with (removelast l ++ [last l ""])%list
      end.
      reflexivity. }
    rewrite E in Hin. apply Hsecondary in Hin. absent Hin.
  - vm_compute. tauto.
  - intros c H. vm_compute in H. vm_compute.
    repeat (destruct H as [H|H]; [subst c; tauto|]). destruct H.
Qed.

(** ** The caller's class name *)

(** C9, amended: a class of the caller's className that tailwind-merge
    keeps when it merges that className alone is in the class list that
    [cn] returns for the base classes followed by the className, and no
    base class it overrides is, unless the className supplies that very
    class itself. *)
Theorem surviving_caller_class_wins :
  forall (classify : Classifier) (base className c : string),
    In c (words (twMerge classify className)) ->
    In c (words (cn classify [VStr base; VStr className]))
    /\ forall b : string,
         In b (words base) ->
         ~ In b (words className) ->
         overrides classify c b = true ->
         ~ In b (words (cn classify [VStr base; VStr className])).
Proof.
  intros classify base className c Hc.
  pose proof (words_cn_pair classify base (Some className)) as Hw.
  cbn [ofOption withDefault] in Hw. rewrite Hw. clear Hw.
  rewrite words_twMerge in Hc. apply in_rev in Hc.
  rewrite mergeFromEnd_app. split.
  - apply in_rev. rewrite rev_involutive. apply in_or_app. now left.
  - intros b Hb Hnot Hov Hin.
    apply in_rev in Hin. rewrite ?rev_involutive in Hin.
    apply in_app_or in Hin as [Hin|Hin].
    + apply mergeFromEnd_incl in Hin. apply in_rev in Hin. now apply Hnot.
    + unfold overrides in Hov.
      destruct (classify c) as [ic|] eqn:Eic; [|discriminate].
      destruct (classify b) as [ib|] eqn:Eib; [|discriminate].
      apply mem_In in Hov.
      revert Hin. eapply conflicting_dropped; [exact Eib|].
      eapply kept_claims; eauto.
Qed.

Lemma surviving_caller_class_wins_witness :
  In "text-lg" (words (twMerge Tailwind.classify "text-lg"))
  /\ In "text-lg"
       (words (cn Tailwind.classify
                 [VStr "text-xs transition-colors"; VStr "text-lg"]))
  /\ ~ In "text-xs"
       (words (cn Tailwind.classify
                 [VStr "text-xs transition-colors"; VStr "text-lg"])).
Proof.
  assert (Hkept : In "text-lg" (words (twMerge Tailwind.classify "text-lg"))).
  { vm_compute. left. reflexivity. }
  destruct (surviving_caller_class_wins Tailwind.classify
              "text-xs transition-colors" "text-lg" "text-lg" Hkept)
    as [Hc Hb].
  split; [exact Hkept | split; [exact Hc|]].
  apply Hb.
  - vm_compute. left. reflexivity.
  - vm_compute. intros [H|H]; [discriminate H | exact H].
  - vm_compute. reflexivity.
Defined.

(** C9 as stated fails: "text-lg text-sm" holds text-lg, which overrides
    the base class text-xs, yet the merged class list holds text-sm in
    its place. *)
Lemma later_caller_class_displaces_earlier :
  ~ callerWins Tailwind.classify "text-xs transition-colors" "text-lg text-sm"
  /\ cn Tailwind.classify [VStr "text-xs transition-colors"; VStr "text-lg text-sm"]
     = "transition-colors text-sm"
  /\ ~ In "text-lg"
       (classesOf (TechBadge Tailwind.classify [] None (Some "text-lg text-sm"))).
Proof.
  split; [|split].
  - intros H. destruct (H "text-lg" "text-xs") as [Hin _].
    + vm_compute. left. reflexivity.
    + vm_compute. left. reflexivity.
    + vm_compute. reflexivity.
    + absent Hin.
  - reflexivity.
  - intros H. absent H.
Qed.

(** ** State outside the props *)

(** C7: no render changes the configuration objects.  The cell that
    holds [statusConfig] holds the literal when [StatusIndicator]
    returns, whatever the props, and renders of the homepage features,
    of the About page and of the sidebar menu leave the world, with the
    module's [FeatureList] and [socialLinks] in it, as it was. *)
Theorem configuration_objects_unchanged :
  forall (classify : Classifier) (styles : string -> string)
         (status label className : option string)
         (items : list BlogSidebarItem) (cell : Value) (w : World),
    execState (StatusIndicatorBody classify status label className) statusConfig
    = statusConfig
    /\ execState (StatusIndicatorBody classify status label className) cell
       = statusConfig
    /\ execState (HomepageFeatures classify) w = w
    /\ execState About w = w
    /\ execState (BlogSidebarMobileSecondaryMenu styles items) w = w
    /\ moduleFeatureList
         (execState (HomepageFeatures classify) (loaded (pathname w)))
       = FeatureList
    /\ moduleSocialLinks (execState About (loaded (pathname w))) = socialLinks.
Proof.
  intros. unfold execState. repeat split; destruct w; render; reflexivity.
Qed.

(** C4 as stated fails on the sidebar menu: given the same sidebar, it
    lists an unlisted post on that post's page and nowhere else. *)
Lemma sidebar_menu_reads_the_location :
  ~ stateless (BlogSidebarMobileSecondaryMenu (fun key : string => key)).
Proof.
  intros H.
  destruct (H [ {| title := "Draft"; permalink := "/blog/draft";
                   unlisted := true |} ]
              "/blog/draft" "/") as [E _].
  vm_compute in E. discriminate E.
Qed.

(** ** Navigation links *)

(** C5 as stated fails on the homepage features: they hold no link. *)
Lemma homepage_features_hold_no_link :
  injectsNavigationLinks
    (evalState (BlogSidebarMobileSecondaryMenu (fun key : string => key) [])
       (loaded "/"))
  = true
  /\ injectsNavigationLinks
       (evalState (HomepageFeatures Tailwind.classify) (loaded "/"))
     = false.
Proof. split; vm_compute; reflexivity. Qed.

(** * Further properties *)

(** ** What cn does to its inputs *)

Module CnAlgebra.

Lemma words_push (str y : string) :
  words (push str y) = (words str ++ words y)%list.
Proof.
  unfold push. destruct (str =? "") eqn:E.
  - apply String.eqb_eq in E. now subst str.
  - apply words_blank.
Qed.

Lemma words_clsx_from (inputs : list Value) (str : string) :
  words (fold_left
           (fun str tmp =>
              if truthy tmp
              then let x := toVal tmp in if x =? "" then str else push str x
              else str)
           inputs str)
  = (words str ++ flat_map classWords inputs)%list.
Proof.
  revert str. induction inputs as [|v l IH]; intros str; simpl.
  - now rewrite app_nil_r.
  - rewrite IH. unfold classWords at 2.
    destruct (truthy v); [|reflexivity].
    cbv zeta. destruct (toVal v =? "") eqn:E.
    + apply String.eqb_eq in E. now rewrite E.
    + now rewrite words_push, app_assoc.
Qed.

(** The class list [clsx] builds: the class words of its truthy inputs,
    one input after the other. *)
Lemma words_clsx (inputs : list Value) :
  words (clsx inputs) = flat_map classWords inputs.
Proof. unfold clsx. now rewrite words_clsx_from. Qed.

Lemma clsx_filter_from (inputs : list Value) (str : string) :
  fold_left
    (fun str tmp =>
       if truthy tmp
       then let x := toVal tmp in if x =? "" then str else push str x
       else str)
    (filter truthy inputs) str
  = fold_left
      (fun str tmp =>
         if truthy tmp
         then let x := toVal tmp in if x =? "" then str else push str x
         else str)
      inputs str.
Proof.
  revert str. induction inputs as [|v l IH]; intros str; simpl.
  - reflexivity.
  - destruct (truthy v) eqn:E; simpl; [rewrite E|]; apply IH.
Qed.

Section Loop.

Variable classify : Classifier.

(** Merging a merged list changes nothing. *)
Lemma mergeFromEnd_idempotent (visited inConflict : list string) :
  mergeFromEnd classify inConflict (mergeFromEnd classify inConflict visited)
  = mergeFromEnd classify inConflict visited.
Proof.
  revert inConflict. induction visited as [|x l IH]; intros seen; simpl.
  - reflexivity.
  - destruct (classify x) as [i|] eqn:Ex.
    + destruct (mem (classId i) seen) eqn:Em.
      * apply IH.
      * simpl. rewrite Ex, Em. now rewrite IH.
    + simpl. rewrite Ex. now rewrite IH.
Qed.

(** A class the table does not know is never dropped. *)
Lemma unknown_kept (visited inConflict : list string) (c : string) :
  classify c = None ->
  In c visited ->
  In c (mergeFromEnd classify inConflict visited).
Proof.
  intros Hc. revert inConflict.
  induction visited as [|x l IH]; intros seen Hin; simpl.
  - destruct Hin.
  - destruct Hin as [E|Hin].
    + subst x. rewrite Hc. now left.
    + destruct (classify x) as [i|].
      * destruct (mem (classId i) seen); [|right]; now apply IH.
      * right. now apply IH.
Qed.

(** The kept classes have pairwise different conflict keys, none of them
    in the conflict list the loop started with. *)
Lemma kept_keys_distinct (visited inConflict : list string) :
  NoDup (groupKeys classify (mergeFromEnd classify inConflict visited))
  /\ forall id, In id (groupKeys classify
                         (mergeFromEnd classify inConflict visited)) ->
                ~ In id inConflict.
Proof.
  revert inConflict. induction visited as [|x l IH]; intros seen; simpl.
  - split; [constructor | intros id []].
  - destruct (classify x) as [i|] eqn:Ex.
    + destruct (mem (classId i) seen) eqn:Em; [apply IH|].
      destruct (IH (seen ++ claimed i)%list) as [Hnd Hout].
      unfold groupKeys. simpl. rewrite Ex. simpl. split.
      * constructor; [|exact Hnd].
        intros Hin. apply (Hout _ Hin).
        apply in_or_app. right. now left.
      * intros id [E|Hin].
        -- subst id. intros Hseen. apply mem_In in Hseen. congruence.
        -- intros Hseen. apply (Hout _ Hin). apply in_or_app. now left.
    + unfold groupKeys. simpl. rewrite Ex. simpl. apply IH.
Qed.

Lemma groupKeys_rev (classes : list string) :
  groupKeys classify (rev classes) = rev (groupKeys classify classes).
Proof.
  unfold groupKeys. induction classes as [|c l IH]; simpl; [reflexivity|].
  rewrite flat_map_app, IH. simpl.
  destruct (classify c); simpl; now rewrite ?app_nil_r.
Qed.

End Loop.

End CnAlgebra.
Import CnAlgebra.

(** X1: [cn] sees its inputs as one list of class words: inputs that
    contribute the same words, however they are split over strings,
    arrays and objects, are merged to the same class string. *)
Theorem cn_reads_class_words :
  forall (classify : Classifier) (inputs1 inputs2 : list Value),
    flat_map classWords inputs1 = flat_map classWords inputs2 ->
    cn classify inputs1 = cn classify inputs2.
Proof.
  intros classify inputs1 inputs2 H.
  unfold cn, twMerge, mergeClassList.
  now rewrite !clsx_array, !words_clsx, H.
Qed.

Lemma cn_reads_class_words_witness :
  cn Tailwind.classify
     [VStr "px-2  text-xs"; VUndef; VObj [("hidden", VBool false)]]
  = cn Tailwind.classify [VArr [VStr "px-2"; VArr [VStr "text-xs"]]].
Proof.
  apply (cn_reads_class_words Tailwind.classify
           [VStr "px-2  text-xs"; VUndef; VObj [("hidden", VBool false)]]
           [VArr [VStr "px-2"; VArr [VStr "text-xs"]]]).
  reflexivity.
Defined.

(** X2: falsy inputs (undefined, null, false, the empty string) add
    nothing: [cn] of the inputs is [cn] of the truthy ones. *)
Theorem cn_skips_falsy_inputs :
  forall (classify : Classifier) (inputs : list Value),
    cn classify (filter truthy inputs) = cn classify inputs.
Proof.
  intros classify inputs. unfold cn. rewrite !clsx_array.
  unfold clsx. now rewrite clsx_filter_from.
Qed.

(** X3: [cn] is idempotent: merging a string that [cn] returned gives
    that string back. *)
Theorem cn_idempotent :
  forall (classify : Classifier) (inputs : list Value),
    cn classify [VStr (cn classify inputs)] = cn classify inputs.
Proof.
  intros classify inputs.
  assert (Hone : forall s, clsx [VStr s] = s).
  { intros s. unfold clsx, push. simpl. destruct (s =? "") eqn:E; simpl.
    - apply String.eqb_eq in E. now subst s.
    - now rewrite ?E. }
  unfold cn at 1. rewrite clsx_array, Hone.
  unfold cn. set (s := clsx [VArr inputs]).
  unfold twMerge at 1. unfold mergeClassList.
  rewrite words_twMerge, rev_involutive, mergeFromEnd_idempotent.
  reflexivity.
Qed.

(** X4: the string [cn] returns is normalised: its classes are set
    apart by single blanks, with no blank in front or behind. *)
Theorem cn_normalised :
  forall (classify : Classifier) (inputs : list Value),
    unwords (words (cn classify inputs)) = cn classify inputs.
Proof.
  intros classify inputs. unfold cn. now rewrite words_twMerge.
Qed.

(** X5: [cn] makes no class up: every class of its result is a class
    word of one of the inputs. *)
Theorem cn_only_input_classes :
  forall (classify : Classifier) (inputs : list Value) (c : string),
    In c (words (cn classify inputs)) ->
    In c (flat_map classWords inputs).
Proof.
  intros classify inputs c H. unfold cn in H.
  apply twMerge_incl in H. now rewrite clsx_array, words_clsx in H.
Qed.

Lemma cn_only_input_classes_witness :
  In "text-lg" (flat_map classWords [VStr "text-xs"; VStr "text-lg"]).
Proof.
  apply (cn_only_input_classes Tailwind.classify
           [VStr "text-xs"; VStr "text-lg"] "text-lg").
  vm_compute. left. reflexivity.
Defined.

(** X6: a class the class-group table does not know (a class of the
    site's own style sheets, say) is never dropped by [cn]. *)
Theorem cn_keeps_foreign_classes :
  forall (classify : Classifier) (inputs : list Value) (c : string),
    classify c = None ->
    In c (flat_map classWords inputs) ->
    In c (words (cn classify inputs)).
Proof.
  intros classify inputs c Hc Hin. unfold cn.
  rewrite words_twMerge, clsx_array, words_clsx.
  apply in_rev. rewrite rev_involutive.
  apply unknown_kept; [assumption|]. now apply in_rev in Hin.
Qed.

Lemma cn_keeps_foreign_classes_witness :
  In "menu__link"
     (words (cn Tailwind.classify
               [VStr "menu__link text-xs"; VStr "menu__link text-lg"])).
Proof.
  apply (cn_keeps_foreign_classes Tailwind.classify
           [VStr "menu__link text-xs"; VStr "menu__link text-lg"] "menu__link").
  - reflexivity.
  - vm_compute. left. reflexivity.
Defined.

(** X7: the result of [cn] holds at most one class for each pair of
    variant modifiers and class group. *)
Theorem cn_one_class_per_group :
  forall (classify : Classifier) (inputs : list Value),
    NoDup (groupKeys classify (words (cn classify inputs))).
Proof.
  intros classify inputs. unfold cn.
  rewrite words_twMerge, groupKeys_rev.
  apply NoDup_rev. apply kept_keys_distinct.
Qed.

(** ** The className a caller passes *)

Module ClassNameFacts.

Section Caller.

Variable classify : Classifier.

(** The last class of the caller's className is the last class [cn]
    returns. *)
Lemma cn_pair_last (base className c : string) (front : list string) :
  words className = (front ++ [c])%list ->
  exists kept,
    words (cn classify [VStr base; VStr className]) = (kept ++ [c])%list.
Proof.
  intros H.
  pose proof (words_cn_pair classify base (Some className)) as Hw.
  cbn [ofOption withDefault] in Hw. rewrite Hw, H, rev_app_distr. simpl.
  destruct (mergeFromEnd_first classify c (rev front ++ rev (words base))%list)
    as [kept E].
  simpl in E. rewrite E. simpl. now exists (rev kept).
Qed.

(** An empty className is as good as none. *)
Lemma cn_pair_empty (base : string) :
  cn classify [VStr base; VStr ""] = cn classify [VStr base; VUndef].
Proof.
  unfold cn. rewrite !clsx_array.
  pose proof (clsx_pair base (Some "")) as Hempty.
  pose proof (clsx_pair base None) as Hnone.
  cbn [ofOption] in Hempty, Hnone. rewrite Hempty, Hnone.
  destruct (base =? "") eqn:E; [|reflexivity].
  apply String.eqb_eq in E. now subst base.
Qed.

End Caller.

End ClassNameFacts.
Import ClassNameFacts.

(** X8: in each of the four components that take a className, the last
    class of the caller's className is in the class list of the element
    the component returns, whatever the base classes and the class
    groups are. *)
Theorem caller_last_class_survives :
  forall (classify : Classifier) (className c : string) (front : list string)
         (status label variant title : option string)
         (props : list (string * AttrVal)) (children : list Node),
    words className = (front ++ [c])%list ->
    In c (classesOf (StatusIndicator classify status label (Some className)))
    /\ In c (classesOf (TerminalWindow classify children title (Some className)))
    /\ In c (classesOf (Badge classify (Some className) variant props children))
    /\ In c (classesOf (TechBadge classify children variant (Some className))).
Proof.
  intros classify className c front status label variant title props children H.
  assert (Hlast : forall base, In c (words (cn classify [VStr base; VStr className]))).
  { intros base. destruct (cn_pair_last classify base className c front H)
      as [kept E].
    rewrite E. apply in_or_app. right. now left. }
  unfold classesOf. repeat split.
  - render. apply Hlast.
  - render. apply Hlast.
  - render. apply Hlast.
  - cbn -[cn badgeVariants words].
    destruct (cn_pair_last classify "text-xs transition-colors" className c
                front H) as [kept E].
    destruct (cn_pair_last classify
                (badgeVariants (VObj [("variant", VStr (withDefault variant "secondary"))]))
                (cn classify [VStr "text-xs transition-colors"; VStr className])
                c kept E) as [kept' E'].
    rewrite E'. apply in_or_app. right. now left.
Qed.

Lemma caller_last_class_survives_witness :
  In "mt-4"
    (classesOf (TechBadge Tailwind.classify [] None (Some "text-lg mt-4"))).
Proof.
  apply (caller_last_class_survives Tailwind.classify "text-lg mt-4" "mt-4"
           ["text-lg"] None None None None [] []).
  reflexivity.
Defined.

(** X9: an empty className changes nothing: each of the four components
    renders with [className=""] what it renders without className. *)
Theorem empty_className_is_no_className :
  forall (classify : Classifier) (status label variant title : option string)
         (props : list (string * AttrVal)) (children : list Node),
    StatusIndicator classify status label (Some "")
    = StatusIndicator classify status label None
    /\ TerminalWindow classify children title (Some "")
       = TerminalWindow classify children title None
    /\ Badge classify (Some "") variant props children
       = Badge classify None variant props children
    /\ TechBadge classify children variant (Some "")
       = TechBadge classify children variant None.
Proof.
  intros. repeat split; render; rewrite !cn_pair_empty; reflexivity.
Qed.

(** ** The status of the indicator *)

(** What [statusConfig[status]] finds for a name that is neither
    configured nor inherited. *)
Lemma unconfigured_status_lookup (status : string) :
  ~ In status ["online"; "offline"; "warning"; "error"] ->
  ~ In status objectPrototypeKeys ->
  prop statusConfig status = VUndef.
Proof.
  intros Hkeys Hproto. unfold prop, statusConfig, own.
  assert (Hne : forall k, In k ["online"; "offline"; "warning"; "error"] ->
                          (k =? status) = false).
  { intros k Hk. apply String.eqb_neq. intros ->. now apply Hkeys. }
  rewrite !Hne by (simpl; tauto).
  unfold inherited.
  destruct (existsb (String.eqb status) objectPrototypeKeys) eqn:Ex;
    [|reflexivity].
  exfalso. apply Hproto. apply existsb_exists in Ex as [k [Hk Ek]].
  apply String.eqb_eq in Ek. now subst.
Qed.

(** X10: a status that is neither one of the four configured ones nor a
    property name inherited from [Object.prototype] is rendered exactly
    as online is. *)
Theorem unknown_status_falls_back_to_online :
  forall (classify : Classifier) (status : string)
         (label className : option string),
    ~ In status ["online"; "offline"; "warning"; "error"] ->
    ~ In status objectPrototypeKeys ->
    StatusIndicator classify (Some status) label className
    = StatusIndicator classify (Some "online") label className.
Proof.
  intros classify status label className Hkeys Hproto.
  unfold StatusIndicator. render.
  rewrite (unconfigured_status_lookup status Hkeys Hproto).
  reflexivity.
Qed.

Lemma unknown_status_falls_back_to_online_witness :
  StatusIndicator Tailwind.classify (Some "degraded") (Some "ACTIVE") None
  = StatusIndicator Tailwind.classify (Some "online") (Some "ACTIVE") None.
Proof.
  apply (unknown_status_falls_back_to_online Tailwind.classify "degraded"
           (Some "ACTIVE") None).
  - intros H. absent H.
  - intros H. absent H.
Defined.

(** X11: for every property name a plain object inherits, the lookup in
    [statusConfig] finds the inherited value and skips the fallback: the
    dot is merged from its base classes alone and so is the span of the
    label. *)
Theorem inherited_status_renders_bare :
  forall (classify : Classifier) (status : string) (className : option string)
         (c : ascii) (rest : string),
    In status objectPrototypeKeys ->
    let shown := StatusIndicator classify (Some status)
                   (Some (String c rest)) className in
    classNameOf (dot shown) = twMerge classify "w-2 h-2 rounded-full"
    /\ afterDot shown
       = [Elem "span" [("className", AStr (twMerge classify "text-sm"))]
            [Text (String c rest)]].
Proof.
  intros classify status className c rest H shown. unfold shown.
  simpl in H.
  repeat (destruct H as [H|H];
          [subst status; split;
           cbn -[cn twMerge prop or_ statusConfig];
           unfold cn; repeat f_equal|]).
  destruct H.
Qed.

Lemma inherited_status_renders_bare_witness :
  classNameOf
    (dot (StatusIndicator Tailwind.classify (Some "toString") (Some "UP") None))
  = twMerge Tailwind.classify "w-2 h-2 rounded-full".
Proof.
  apply (inherited_status_renders_bare Tailwind.classify "toString" None
           "U" "P").
  vm_compute. tauto.
Defined.

(** X12: for each of the four statuses, the span of a non-empty label
    carries the dark-mode text colour filed under the status. *)
Theorem status_text_colour_on_label :
  forall (classify : Classifier) (className : option string)
         (c : ascii) (rest : string),
    let span status :=
      labelSpan (StatusIndicator classify (Some status)
                   (Some (String c rest)) className) in
    (tagOf (span "online") = Some "span"
     /\ In "dark:text-green-400" (classesOf (span "online")))
    /\ (tagOf (span "offline") = Some "span"
        /\ In "dark:text-gray-400" (classesOf (span "offline")))
    /\ (tagOf (span "warning") = Some "span"
        /\ In "dark:text-yellow-400" (classesOf (span "warning")))
    /\ (tagOf (span "error") = Some "span"
        /\ In "dark:text-red-400" (classesOf (span "error"))).
Proof.
  intros classify className c rest span. unfold span, classesOf.
  repeat split;
    try (render; reflexivity);
    render;
    eapply twMerge_keeps_last with (front := [_; _]);
    vm_compute; reflexivity.
Qed.

(** ** The variant of a badge *)

Lemma own_miss (props : list (string * Value)) (key : string) :
  (forall k v, In (k, v) props -> k <> key) -> own props key = None.
Proof.
  induction props as [|[k v] l IH]; intros H; simpl; [reflexivity|].
  destruct (k =? key) eqn:E.
  - apply String.eqb_eq in E. exfalso. apply (H k v); [now left | exact E].
  - apply IH. intros k' v' Hin. apply (H k' v'). now right.
Qed.

(** X13: the variant of a badge at its edges.  An empty variant counts
    as none and gets the classes of "default"; a variant that is not
    configured gets the base classes and nothing else, also when it
    names a property every object inherits. *)
Theorem badge_variant_edges :
  forall variant : string,
    badgeVariants (VObj [("variant", VStr "")])
    = badgeVariants (VObj [("variant", VUndef)])
    /\ (variant <> "" ->
        ~ In variant ["default"; "secondary"; "destructive"; "outline"] ->
        badgeVariants (VObj [("variant", VStr variant)]) = badgeBase).
Proof.
  intros variant. split; [reflexivity|].
  intros Hne Hkeys.
  assert (Ev : (variant =? "") = false) by now apply String.eqb_neq.
  change (badgeVariants (VObj [("variant", VStr variant)]))
    with (clsx [VStr badgeBase;
                VArr [prop (prop badgeVariantClasses "variant")
                        (toPropertyKey (or_ (VStr variant) (VStr "default")))];
                VUndef; VUndef; VUndef]).
  unfold or_, truthy. rewrite Ev. cbn [negb toPropertyKey].
  assert (Hlook : prop (prop badgeVariantClasses "variant") variant
                  = inherited variant).
  { let t := eval vm_compute in (prop badgeVariantClasses "variant") in
    change (prop badgeVariantClasses "variant") with t.
    unfold prop. rewrite own_miss; [reflexivity|].
    intros k v Hin Ek. apply Hkeys. subst k. simpl in Hin. simpl.
    repeat (destruct Hin as [Hin|Hin];
            [injection Hin as Hin _; tauto|]).
    destruct Hin. }
  rewrite Hlook. unfold inherited.
  destruct (existsb (String.eqb variant) objectPrototypeKeys); reflexivity.
Qed.

Lemma badge_variant_edges_witness :
  badgeVariants (VObj [("variant", VStr "ghost")]) = badgeBase.
Proof.
  apply (badge_variant_edges "ghost").
  - discriminate.
  - intros H. absent H.
Defined.

(** X14: the default of [TechBadge] covers a missing variant only.  An
    empty variant is handed on to [Badge], which renders it with its own
    default: the markup is that of [Badge] without variant, and under
    the default class groups it carries the background of "default" and
    not that of "secondary". *)
Theorem techBadge_empty_variant :
  forall (classify : Classifier) (children : list Node)
         (className : option string),
    TechBadge classify children (Some "") className
    = Badge classify
        (Some (cn classify [VStr "text-xs transition-colors";
                            ofOption className]))
        None [] children
    /\ In "bg-primary-600"
         (classesOf (TechBadge Tailwind.classify children (Some "") None))
    /\ ~ In "bg-gray-100"
         (classesOf (TechBadge Tailwind.classify children (Some "") None)).
Proof.
  intros classify children className. split; [|split].
  - assert (E : badgeVariants (VObj [("variant", VStr "")])
                = badgeVariants (VObj [("variant", VUndef)]))
      by (vm_compute; reflexivity).
    unfold TechBadge, Badge. cbn [withDefault ofOption]. now rewrite E.
  - vm_compute. tauto.
  - intros H. absent H.
Qed.

(** ** The About page *)

Module AboutFacts.

(** The anchor [About] builds for a social link. *)
Lemma anchors_of_links (entries : list SocialLink.t) :
  Forall (fun link => elements "a" (SocialLink.icon link) = []) entries ->
  let anchor link :=
    Elem "a"
      [("href", AStr (SocialLink.url link));
       ("target", AStr "_blank");
       ("rel", AStr "noopener noreferrer");
       ("className", AStr "about-social-link");
       ("title", AStr (SocialLink.name link))]
      [ SocialLink.icon link;
        Elem "span" [] [Text (SocialLink.name link)] ] in
  flat_map (elements "a") (map anchor entries) = map anchor entries.
Proof.
  intros H anchor. induction H as [|link l Hicon Hl IH]; [reflexivity|].
  cbn [map flat_map]. rewrite IH.
  unfold anchor at 1. cbn -[anchor]. rewrite Hicon. reflexivity.
Qed.

End AboutFacts.
Import AboutFacts.

(** X15: when no icon holds an anchor of its own, the anchors of the
    About page are the social links, one for each and in their order:
    each points at the url of its link, opens in a new tab and is marked
    noopener noreferrer. *)
Theorem about_links_open_safely :
  forall w : World,
    Forall (fun link => elements "a" (SocialLink.icon link) = [])
           (moduleSocialLinks w) ->
    let anchors := elements "a" (evalState About w) in
    map (attrOf "href") anchors
    = map (fun link => Some (AStr (SocialLink.url link))) (moduleSocialLinks w)
    /\ Forall (fun a => attrOf "target" a = Some (AStr "_blank")
                        /\ attrOf "rel" a = Some (AStr "noopener noreferrer"))
              anchors.
Proof.
  intros w H anchors.
  assert (E : anchors
              = map (fun link =>
                       Elem "a"
                         [("href", AStr (SocialLink.url link));
                          ("target", AStr "_blank");
                          ("rel", AStr "noopener noreferrer");
                          ("className", AStr "about-social-link");
                          ("title", AStr (SocialLink.name link))]
                         [ SocialLink.icon link;
                           Elem "span" [] [Text (SocialLink.name link)] ])
                    (moduleSocialLinks w)).
  { unfold anchors, evalState. destruct w as [path features socials].
    cbn in H |- *. rewrite !app_nil_r.
    apply (anchors_of_links socials H). }
  rewrite E. split.
  - rewrite map_map. reflexivity.
  - apply Forall_forall. intros a Ha. apply in_map_iff in Ha as [link [<- _]].
    split; reflexivity.
Qed.

Lemma about_links_open_safely_witness :
  map (attrOf "href") (elements "a" (evalState About (loaded "/about")))
  = [ Some (AStr "https://github.com/arunlakshman");
      Some (AStr "https://www.linkedin.com/in/arun-laksh/");
      Some (AStr "https://twitter.com/arun_lakshman") ].
Proof.
  apply (about_links_open_safely (loaded "/about")).
  repeat constructor.
Defined.

(** ** The sidebar menu *)

(** X16: whatever page is being shown, the items the sidebar menu hands
    to the sidebar content are items of the sidebar it was given, and
    every item of that sidebar that is not unlisted is among them. *)
Theorem menu_lists_the_listed_items :
  forall (styles : string -> string) (items : list BlogSidebarItem) (w : World),
    let shown :=
      menuItems (evalState (BlogSidebarMobileSecondaryMenu styles items) w) in
    incl shown items
    /\ incl (filter (fun item => negb (unlisted item)) items) shown.
Proof.
  intros styles items w shown.
  assert (E : shown = filter (fun item => isVisible item (pathname w)) items).
  { unfold shown, evalState. destruct w. cbn -[filter isVisible].
    now rewrite app_nil_r. }
  rewrite E. split; intros item Hin; apply filter_In in Hin as [Hin Hv];
    [exact Hin|].
  apply filter_In. split; [exact Hin|].
  unfold isVisible. apply negb_true_iff in Hv. now rewrite Hv.
Qed.

(** ** The feature grid *)

Module GridFacts.

Section Grid.

Variable classify : Classifier.

Lemma cards_visible (entries : list FeatureProps.t) :
  filter visible (map (Feature classify) entries)
  = map (Feature classify) entries.
Proof.
  induction entries as [|p l IH]; [reflexivity|].
  cbn [map filter]. unfold Feature at 1. cbn [visible]. now rewrite IH.
Qed.

Lemma cardsOf_home (w : World) :
  cardsOf (evalState (HomepageFeatures classify) w)
  = map (Feature classify) (moduleFeatureList w).
Proof.
  unfold cardsOf, evalState. destruct w as [path features socials].
  cbn -[Feature filter map]. cbn [filter visible negb String.eqb].
  apply cards_visible.
Qed.

End Grid.

End GridFacts.
Import GridFacts.

(** X17: whatever the feature list holds, the grid shows one card for
    each entry, in the order of the list (none for an empty list); the
    card shows the title of its entry, and its status indicator is
    labelled ACTIVE whatever the status of the entry is. *)
Theorem one_card_per_feature :
  forall (classify : Classifier) (w : World),
    let cards := cardsOf (evalState (HomepageFeatures classify) w) in
    map (fun card => elements "CardTitle" (headerOf card)) cards
    = map (fun entry =>
             [Elem "CardTitle" [("className", AStr "font-mono")]
                [Text (FeatureProps.title entry)]])
          (moduleFeatureList w)
    /\ map (fun card => map childrenOf (afterDot (indicatorOf card))) cards
       = map (fun _ => [[Text "ACTIVE"]]) (moduleFeatureList w).
Proof.
  intros classify w cards. unfold cards. rewrite cardsOf_home.
  rewrite !map_map. split; apply map_ext; intros entry;
    cbn -[cn prop or_ statusConfig]; reflexivity.
Qed.

(** ** Empty strings and defaults *)

(** X18: a default covers a missing prop, not an empty one.  With the
    title [""] the terminal window shows an empty title bar where a
    missing title gives "Example"; an indicator with the status [""] is
    still shown as online, through the fallback of the lookup. *)
Theorem empty_string_props :
  forall (classify : Classifier) (children : list Node)
         (label className : option string),
    titleTextOf (TerminalWindow classify children (Some "") className) = []
    /\ titleTextOf (TerminalWindow classify children None className)
       = [Text "Example"]
    /\ StatusIndicator classify (Some "") label className
       = StatusIndicator classify None label className.
Proof.
  intros classify children label className. split; [|split].
  - cbn -[cn]. reflexivity.
  - cbn -[cn]. reflexivity.
  - unfold StatusIndicator. render. reflexivity.
Qed.

(** ** Base classes and the caller's classes *)

(** X19: the base classes have no say in what is kept of the caller's
    className.  The class list [cn] returns for base classes followed by
    a className ends with the class list of the className merged alone;
    what stands in front of it are base classes. *)
Theorem base_classes_do_not_touch_the_callers :
  forall (classify : Classifier) (base className : string),
    exists keptBase : list string,
      words (cn classify [VStr base; VStr className])
      = (keptBase ++ words (twMerge classify className))%list
      /\ incl keptBase (words base).
Proof.
  intros classify base className.
  pose proof (words_cn_pair classify base (Some className)) as Hw.
  cbn [ofOption withDefault] in Hw.
  exists (rev (mergeFromEnd classify
                 (conflictAfter classify [] (rev (words className)))
                 (rev (words base)))).
  split.
  - rewrite Hw, mergeFromEnd_app, rev_app_distr. now rewrite words_twMerge.
  - intros b Hb. apply in_rev in Hb. apply mergeFromEnd_incl in Hb.
    now apply in_rev in Hb.
Qed.

(** ** Renders with the cache in sight *)

Module LiveFacts.

Import LruCache.

Lemma mapGet_mapSet (m : list (string * string)) (key value key' : string) :
  mapGet (mapSet m key value) key'
  = if key =? key' then Some value else mapGet m key'.
Proof.
  induction m as [|[k v] rest IH]; simpl.
  - reflexivity.
  - destruct (k =? key) eqn:Ek; simpl.
    + apply String.eqb_eq in Ek. subst k.
      destruct (key =? key'); reflexivity.
    + rewrite IH. destruct (k =? key') eqn:Ek'; [|reflexivity].
      apply String.eqb_eq in Ek'. subst k. now rewrite String.eqb_sym, Ek.
Qed.

Section Cache.

Variable classify : Classifier.

Local Abbreviation sound := (Live.sound classify).
Local Abbreviation consistent := (Live.consistent classify).
Local Abbreviation renders := (Live.renders classify).

Lemma sound_nil : sound [].
Proof. intros key value H. discriminate H. Qed.

Lemma consistent_created : consistent created.
Proof. split; apply sound_nil. Qed.

Lemma sound_mapSet (m : list (string * string)) (key : string) :
  sound m -> sound (mapSet m key (mergeClassList classify key)).
Proof.
  intros Hm key' value H. rewrite mapGet_mapSet in H.
  destruct (key =? key') eqn:E.
  - apply String.eqb_eq in E. subst key'. now injection H as <-.
  - now apply Hm.
Qed.

Lemma consistent_update (c : t) (key : string) :
  consistent c -> consistent (update key (mergeClassList classify key) c).
Proof.
  intros [Hyoung Hold]. unfold update.
  destruct (maxCacheSize c <? S (cacheSize c))%nat; split; simpl;
    auto using sound_nil, sound_mapSet.
Qed.

Lemma consistent_set (c : t) (key : string) :
  consistent c -> consistent (set key (mergeClassList classify key) c).
Proof.
  intros H. unfold set.
  destruct (maxCacheSize c <? 1)%nat; [assumption|].
  destruct (mapHas (cache c) key).
  - destruct H as [Hyoung Hold]. split; simpl; auto using sound_mapSet.
  - now apply consistent_update.
Qed.

(** What the cache answers is the merged class list, and answering
    keeps the cache consistent. *)
Lemma consistent_get (c : t) (key : string) :
  consistent c ->
  consistent (snd (get key c))
  /\ forall value, fst (get key c) = Some value ->
                   value = mergeClassList classify key.
Proof.
  intros H. pose proof H as [Hyoung Hold]. unfold get.
  destruct (maxCacheSize c <? 1)%nat; [split; [assumption | discriminate]|].
  destruct (mapGet (cache c) key) as [young|] eqn:Ey; simpl.
  - split; [assumption|]. intros value E. injection E as <-. now apply Hyoung.
  - destruct (mapGet (previousCache c) key) as [old|] eqn:Eo; simpl.
    + assert (Eold : old = mergeClassList classify key) by now apply Hold.
      subst old. split; [now apply consistent_update|].
      now intros value E; injection E as <-.
    + split; [assumption | discriminate].
Qed.

(** With a consistent cache [twMerge] answers what it would compute. *)
Lemma twMerge_renders (classList : string) :
  renders (Live.twMerge classify classList)
          (fun _ => twMerge classify classList).
Proof.
  intros r Hr. unfold Live.twMerge. cbn [runState].
  destruct (consistent_get (mergeCache r) classList Hr) as [Hafter Hvalue].
  destruct (fst (get classList (mergeCache r))) as [cachedResult|].
  - destruct (cachedResult =? ""); cbn [fst snd world mergeCache].
    + split; [reflexivity | split; [reflexivity | now apply consistent_set]].
    + split; [now apply Hvalue | split; [reflexivity | assumption]].
  - cbn [fst snd world mergeCache].
    split; [reflexivity | split; [reflexivity | now apply consistent_set]].
Qed.

Lemma cn_renders (inputs : list Value) :
  renders (Live.cn classify inputs) (fun _ => cn classify inputs).
Proof. apply twMerge_renders. Qed.

Lemma renders_ret {A : Type} (a : A) : renders (ret a) (fun _ => a).
Proof. intros r Hr. split; [reflexivity | split; [reflexivity | assumption]]. Qed.

Lemma renders_bind {A B : Type} (m : state Runtime A) (k : A -> state Runtime B)
  (f : World -> A) (g : A -> World -> B) :
  renders m f ->
  (forall a, renders (k a) (g a)) ->
  renders (bind m k) (fun w => g (f w) w).
Proof.
  intros Hm Hk r Hr. destruct (Hm r Hr) as (Ea & Wa & Ca).
  cbn [bind Monad_state runState].
  destruct (runState m r) as [a r'] eqn:E. cbn [fst snd] in *.
  destruct (Hk a r' Ca) as (Eb & Wb & Cb).
  subst a. rewrite Wa in Eb, Wb. split; [|split]; assumption.
Qed.

(** The same for a render whose markup does not depend on the world. *)
Lemma renders_then {A B : Type} (m : state Runtime A) (k : A -> state Runtime B)
  (a : A) (b : B) :
  renders m (fun _ => a) ->
  renders (k a) (fun _ => b) ->
  renders (bind m k) (fun _ => b).
Proof.
  intros Hm Hk r Hr. destruct (Hm r Hr) as (Ea & Wa & Ca).
  cbn [bind Monad_state runState].
  destruct (runState m r) as [a' r'] eqn:E. cbn [fst snd] in *. subst a'.
  destruct (Hk r' Ca) as (Eb & Wb & Cb).
  rewrite Wa in Wb. split; [|split]; assumption.
Qed.

Lemma renders_ext {A : Type} (m : state Runtime A) (f g : World -> A) :
  renders m f -> (forall w, f w = g w) -> renders m g.
Proof.
  intros Hm E r Hr. destruct (Hm r Hr) as (Ea & Wa & Ca).
  rewrite <- E. split; [|split]; assumption.
Qed.

Lemma renders_gets {A : Type} (read : World -> A) :
  renders (gets (fun r => read (world r))) read.
Proof. intros r Hr. split; [reflexivity | split; [reflexivity | assumption]]. Qed.

Lemma renders_inWorld {A : Type} (render : state World A) :
  (forall w, snd (runState render w) = w) ->
  renders (Live.inWorld render) (fun w => fst (runState render w)).
Proof.
  intros Hw r Hr. unfold Live.inWorld. cbn [runState fst snd world mergeCache].
  rewrite Hw. split; [reflexivity | split; [reflexivity | assumption]].
Qed.

(** Take a render apart, bind by bind. *)
Ltac step :=
  first [ apply cn_renders
        | apply renders_ret
        | eapply renders_then ].

Lemma StatusIndicator_renders (status label className : option string) :
  renders (Live.StatusIndicator classify status label className)
          (fun _ => StatusIndicator classify status label className).
Proof.
  unfold Live.StatusIndicator.
  destruct label as [l|]; [destruct (l =? "") eqn:El|];
    (eapply renders_ext; [repeat step|]);
    intros w; unfold StatusIndicator; cbn -[cn prop or_ statusConfig];
    rewrite ?El; reflexivity.
Qed.

Lemma Badge_renders (className variant : option string)
  (props : list (string * AttrVal)) (children : list Node) :
  renders (Live.Badge classify className variant props children)
          (fun _ => Badge classify className variant props children).
Proof.
  unfold Live.Badge. eapply renders_ext; [repeat step|]. reflexivity.
Qed.

Lemma TechBadge_renders (children : list Node) (variant className : option string) :
  renders (Live.TechBadge classify children variant className)
          (fun _ => TechBadge classify children variant className).
Proof.
  unfold Live.TechBadge.
  eapply renders_ext;
    [eapply renders_then; [apply cn_renders | apply Badge_renders]|].
  reflexivity.
Qed.

Lemma TerminalWindow_renders (children : list Node)
  (title className : option string) :
  renders (Live.TerminalWindow classify children title className)
          (fun _ => TerminalWindow classify children title className).
Proof.
  unfold Live.TerminalWindow. eapply renders_ext; [repeat step|]. reflexivity.
Qed.

Lemma Feature_renders (props : FeatureProps.t) :
  renders (Live.Feature classify props) (fun _ => Feature classify props).
Proof.
  unfold Live.Feature.
  eapply renders_ext;
    [eapply renders_then; [apply StatusIndicator_renders | apply renders_ret]|].
  reflexivity.
Qed.

Lemma features_renders (entries : list FeatureProps.t) :
  renders (Live.features classify entries)
          (fun _ => map (Feature classify) entries).
Proof.
  induction entries as [|entry rest IH]; cbn [Live.features map].
  - apply renders_ret.
  - eapply renders_then; [apply Feature_renders|].
    eapply renders_then; [apply IH | apply renders_ret].
Qed.

Lemma HomepageFeatures_renders :
  renders (Live.HomepageFeatures classify)
          (fun w => evalState (HomepageFeatures classify) w).
Proof.
  unfold Live.HomepageFeatures.
  eapply renders_ext;
    [apply (renders_bind _ _ moduleFeatureList
              (fun entries _ =>
                 evalState (HomepageFeatures classify)
                   {| pathname := ""; moduleFeatureList := entries;
                      moduleSocialLinks := [] |}));
       [apply (renders_gets moduleFeatureList)
       | intros entries; eapply renders_then;
           [apply features_renders | apply renders_ret]]|].
  intros w. reflexivity.
Qed.

End Cache.

End LiveFacts.
Import LiveFacts.

(** ** What a render reads and writes *)

(** C4, amended: the markup of StatusIndicator, TechBadge, Badge and
    TerminalWindow is a function of the props: run with whatever
    tailwind-merge has cached before, on whatever page, a render returns
    the markup computed from the props alone, leaves the world as it was
    and leaves the cache holding merged class lists only.  The homepage
    features read the module's feature list besides, the About page the
    module's social links, and the sidebar menu the path of the page
    being shown; they write nothing but the cache, where a [cn] that
    starts on a fresh cache leaves its result. *)
Theorem markup_is_a_function_of_the_props :
  forall (classify : Classifier) (styles : string -> string),
    (forall status label className,
        Live.renders classify
          (Live.StatusIndicator classify status label className)
          (fun _ => StatusIndicator classify status label className))
    /\ (forall children variant className,
          Live.renders classify
            (Live.TechBadge classify children variant className)
            (fun _ => TechBadge classify children variant className))
    /\ (forall className variant props children,
          Live.renders classify
            (Live.Badge classify className variant props children)
            (fun _ => Badge classify className variant props children))
    /\ (forall children title className,
          Live.renders classify
            (Live.TerminalWindow classify children title className)
            (fun _ => TerminalWindow classify children title className))
    /\ Live.renders classify (Live.HomepageFeatures classify)
         (fun w => evalState (HomepageFeatures classify)
                     {| pathname := ""; moduleFeatureList := moduleFeatureList w;
                        moduleSocialLinks := [] |})
    /\ Live.renders classify Live.About
         (fun w => evalState About
                     {| pathname := ""; moduleFeatureList := [];
                        moduleSocialLinks := moduleSocialLinks w |})
    /\ (forall items,
          Live.renders classify (Live.BlogSidebarMobileSecondaryMenu styles items)
            (fun w => evalState (BlogSidebarMobileSecondaryMenu styles items)
                        {| pathname := pathname w; moduleFeatureList := [];
                           moduleSocialLinks := [] |}))
    /\ (forall inputs path,
          LruCache.mapGet
            (LruCache.cache
               (mergeCache (execState (Live.cn classify inputs) (started path))))
            (clsx [VArr inputs])
          = Some (cn classify inputs)).
Proof.
  intros classify styles.
  split; [intros; apply StatusIndicator_renders|].
  split; [intros; apply TechBadge_renders|].
  split; [intros; apply Badge_renders|].
  split; [intros; apply TerminalWindow_renders|].
  split; [|split; [|split]].
  - eapply renders_ext; [apply HomepageFeatures_renders|].
    intros [path entries socials]. reflexivity.
  - eapply renders_ext;
      [apply (renders_inWorld classify About); intros [path entries socials];
       reflexivity|].
    intros [path entries socials]. reflexivity.
  - intros items.
    eapply renders_ext;
      [apply (renders_inWorld classify
                (BlogSidebarMobileSecondaryMenu styles items));
       intros [path entries socials]; reflexivity|].
    intros [path entries socials]. reflexivity.
  - intros inputs path. unfold execState, Live.cn, Live.twMerge, started.
    cbn -[clsx mergeClassList String.eqb]. now rewrite String.eqb_refl.
Qed.

Lemma markup_is_a_function_of_the_props_witness :
  Live.consistent Tailwind.classify (mergeCache (started "/"))
  /\ evalState
       (Live.StatusIndicator Tailwind.classify (Some "warning") (Some "ACTIVE")
          None)
       (started "/")
     = StatusIndicator Tailwind.classify (Some "warning") (Some "ACTIVE") None.
Proof.
  assert (H : Live.consistent Tailwind.classify (mergeCache (started "/"))).
  { split; intros key value E; discriminate E. }
  split; [exact H|].
  exact (proj1 (proj1 (markup_is_a_function_of_the_props Tailwind.classify
                         (fun key : string => key))
                  (Some "warning") (Some "ACTIVE") None (started "/") H)).
Defined.

(** ** Navigation links and the feature grid *)

(** C5, amended: the sidebar menu puts one link, to /about, in front of
    the sidebar content.  The homepage feature grid holds no link: it
    holds one card for each entry of the feature list, three of them,
    and every card has a status indicator, a green dot followed by the
    label ACTIVE. *)
Theorem sidebar_link_and_feature_cards :
  forall (classify : Classifier) (styles : string -> string)
         (items : list BlogSidebarItem) (w : World) (path : string),
    let menu := evalState (BlogSidebarMobileSecondaryMenu styles items) w in
    let home := evalState (HomepageFeatures classify) (loaded path) in
    tags menu = ["ul"; "li"; "Link"; "hr"; "BlogSidebarContent"]
    /\ links menu
       = [Elem "Link" [("to", AStr "/about"); ("className", AStr "menu__link")]
            [Text "About"]]
    /\ links home = []
    /\ map tagOf (cardsOf home) = map (fun _ => Some "Card") FeatureList
    /\ length FeatureList = 3
    /\ map indicatorOf (cardsOf home)
       = map (fun entry =>
                StatusIndicator classify (Some (FeatureProps.status entry))
                  (Some "ACTIVE") None)
             FeatureList
    /\ Forall (fun card =>
                 tagOf (dot (indicatorOf card)) = Some "div"
                 /\ In "bg-green-500" (classesOf (dot (indicatorOf card)))
                 /\ map childrenOf (afterDot (indicatorOf card))
                    = [[Text "ACTIVE"]])
              (cardsOf home).
Proof.
  intros classify styles items w path menu home.
  assert (Hcards : cardsOf home = map (Feature classify) FeatureList).
  { unfold home. apply cardsOf_home. }
  assert (Hgreen : forall label className,
            In "bg-green-500"
               (classesOf (dot (StatusIndicator classify (Some "online")
                                  label className)))).
  { intros label className. unfold classesOf. rewrite dot_className.
    apply twMerge_keeps_last with (front := ["w-2"; "h-2"; "rounded-full"]).
    vm_compute. reflexivity. }
  split; [|split; [|split; [|split; [|split; [|split]]]]].
  - unfold menu, evalState. destruct w. render. reflexivity.
  - unfold menu, evalState. destruct w. render. reflexivity.
  - unfold home, evalState. render. reflexivity.
  - rewrite Hcards. reflexivity.
  - reflexivity.
  - rewrite Hcards. reflexivity.
  - rewrite Hcards. cbn [FeatureList map].
    repeat constructor; try (render; reflexivity); apply Hgreen.
Qed.

(** ** Defaults and fallbacks *)



(** ** Runs on concrete props *)

Module Examples.

Example cn_keeps_disjoint_classes :
  cn Tailwind.classify [VStr "w-2 h-2 rounded-full"; VStr "bg-green-500"]
  = "w-2 h-2 rounded-full bg-green-500".
Proof. reflexivity. Qed.

Example cn_skips_undefined :
  cn Tailwind.classify [VStr "flex items-center gap-2"; VUndef]
  = "flex items-center gap-2".
Proof. reflexivity. Qed.

Example cn_last_font_size_wins :
  cn Tailwind.classify [VStr "text-xs transition-colors"; VStr "text-lg"]
  = "transition-colors text-lg".
Proof. reflexivity. Qed.

Example cn_colour_is_not_a_size :
  cn Tailwind.classify [VStr "text-sm"; VStr "text-green-600 dark:text-green-400"]
  = "text-sm text-green-600 dark:text-green-400".
Proof. reflexivity. Qed.

Example cn_object_input :
  cn Tailwind.classify
     [VStr "px-2"; VObj [("px-4", VBool true); ("hidden", VBool false)]]
  = "px-4".
Proof. reflexivity. Qed.

Example techBadge_default :
  classNameOf (TechBadge Tailwind.classify [Text "Flink"] None None)
  = "inline-flex items-center rounded-full border px-2.5 py-0.5 font-semibold focus:outline-none focus:ring-2 focus:ring-primary-500 focus:ring-offset-2 border-gray-300 bg-gray-100 text-gray-900 hover:bg-gray-200 dark:border-gray-600 dark:bg-gray-800 dark:text-gray-100 dark:hover:bg-gray-700 text-xs transition-colors".
Proof. reflexivity. Qed.

Example badge_default :
  classNameOf (Badge Tailwind.classify None None [] [Text "Flink"])
  = "inline-flex items-center rounded-full border px-2.5 py-0.5 text-xs font-semibold transition-colors focus:outline-none focus:ring-2 focus:ring-primary-500 focus:ring-offset-2 border-transparent bg-primary-600 text-white hover:bg-primary-700".
Proof. reflexivity. Qed.

Example statusIndicator_warning :
  StatusIndicator Tailwind.classify (Some "warning") (Some "ACTIVE") None
  = Elem "div" [("className", AStr "flex items-center gap-2")]
      [ Elem "div" [("className", AStr "w-2 h-2 rounded-full bg-yellow-500")] [];
        Elem "span"
          [("className", AStr "text-sm text-yellow-600 dark:text-yellow-400")]
          [Text "ACTIVE"] ].
Proof. reflexivity. Qed.

Example statusIndicator_constructor :
  StatusIndicator Tailwind.classify (Some "constructor") (Some "ACTIVE") None
  = Elem "div" [("className", AStr "flex items-center gap-2")]
      [ Elem "div" [("className", AStr "w-2 h-2 rounded-full")] [];
        Elem "span" [("className", AStr "text-sm")] [Text "ACTIVE"] ].
Proof. reflexivity. Qed.

Example statusIndicator_unknown :
  StatusIndicator Tailwind.classify (Some "degraded") None None
  = StatusIndicator Tailwind.classify (Some "online") None None.
Proof. reflexivity. Qed.

Example techBadge_caller_size :
  classNameOf (TechBadge Tailwind.classify [Text "Kafka"] None (Some "text-lg"))
  = "inline-flex items-center rounded-full border px-2.5 py-0.5 font-semibold focus:outline-none focus:ring-2 focus:ring-primary-500 focus:ring-offset-2 border-gray-300 bg-gray-100 text-gray-900 hover:bg-gray-200 dark:border-gray-600 dark:bg-gray-800 dark:text-gray-100 dark:hover:bg-gray-700 transition-colors text-lg".
Proof. reflexivity. Qed.

Example sidebar_on_the_draft_page :
  evalState
    (useVisibleBlogSidebarItems
       [ {| title := "Draft"; permalink := "/blog/draft"; unlisted := true |};
         {| title := "Post"; permalink := "/blog/post"; unlisted := false |} ])
    (loaded "/blog/Draft/")
  = [ {| title := "Draft"; permalink := "/blog/draft"; unlisted := true |};
      {| title := "Post"; permalink := "/blog/post"; unlisted := false |} ].
Proof. reflexivity. Qed.

Example sidebar_elsewhere :
  evalState
    (useVisibleBlogSidebarItems
       [ {| title := "Draft"; permalink := "/blog/draft"; unlisted := true |};
         {| title := "Post"; permalink := "/blog/post"; unlisted := false |} ])
    (loaded "/about")
  = [ {| title := "Post"; permalink := "/blog/post"; unlisted := false |} ].
Proof. reflexivity. Qed.

Example cn_fills_the_cache :
  LruCache.cache
    (mergeCache
       (execState (Live.cn Tailwind.classify [VStr "px-2"; VStr "px-4"])
          (started "/")))
  = [("px-2 px-4", "px-4")].
Proof. reflexivity. Qed.

Example cn_answers_from_the_cache :
  evalState
    (Live.cn Tailwind.classify [VStr "px-2"; VStr "px-4"])
    {| world := loaded "/";
       mergeCache := {| LruCache.maxCacheSize := 500; LruCache.cacheSize := 1;
                        LruCache.cache := [("px-2 px-4", "cached")];
                        LruCache.previousCache := [] |} |}
  = "cached".
Proof. reflexivity. Qed.

Example full_cache_turns_over :
  LruCache.update "b" "b"
    {| LruCache.maxCacheSize := 1; LruCache.cacheSize := 1;
       LruCache.cache := [("a", "a")]; LruCache.previousCache := [] |}
  = {| LruCache.maxCacheSize := 1; LruCache.cacheSize := 0;
       LruCache.cache := []; LruCache.previousCache := [("a", "a"); ("b", "b")] |}.
Proof. reflexivity. Qed.

Example live_techBadge :
  evalState (Live.TechBadge Tailwind.classify [Text "Flink"] None None)
    (started "/")
  = TechBadge Tailwind.classify [Text "Flink"] None None.
Proof. reflexivity. Qed.

End Examples.
